(** * Agentic-Coding-Memory: the Python example client, the parser test
      and the sample module

    A shallow embedding of [amp/examples/python_basic.py] (the
    [MockAmpClient] with its three coroutines, and [main]), of
    [amp/test_parser_fix.py] from the response of the parse endpoint
    on, and of [test-repo/python/sample.py].

    The coroutines are awaited one after the other by [main], so each
    one is a state transformer over the part of the Python process it
    touches: the operating system's entropy pool (read by
    [uuid.uuid4]), the system clock (read by [datetime.utcnow]) and the
    standard output (written by [print]).  Where a call can raise, its
    result is the value or the exception. *)

From Stdlib Require Import ZArith List String Ascii Lia Bool Arith DecimalString.
From Stdlib Require Import PrimFloat.
Import ListNotations.

Open Scope string_scope.
Open Scope Z_scope.

(* ================================================================== *)
(** ** Python values *)

(** The values the modelled code handles: what the client puts in its
    dict literals (strings, ints, a list, a nested dict) and what
    [response.json()] can return besides ([None], booleans, floats).
    Python dicts keep insertion order, so a dict is an association list
    in the order of the literal. *)
#[local] Set Warnings "-register-all".
Inductive pyval : Type :=
| PNone
| PBool (b : bool)
| PInt (z : Z)
| PFloat (f : float)
| PStr (s : string)
| PList (l : list pyval)
| PDict (d : list (string * pyval)).

Definition pydict := list (string * pyval).

(** [d[key]]; [None] stands for [KeyError]. *)
Fixpoint dict_get (key : string) (d : pydict) : option pyval :=
  match d with
  | [] => None
  | (k, v) :: d' => if String.eqb k key then Some v else dict_get key d'
  end.

(** [del d[key]] on a copy: every binding of [key] removed. *)
Definition dict_remove (key : string) (d : pydict) : pydict :=
  filter (fun kv => negb (String.eqb (fst kv) key)) d.

(* ================================================================== *)
(** ** Exceptions *)

(** The exceptions the modelled code can raise. *)
Inductive pyexn : Type :=
| KeyError (key : string)
| TypeError
| ValueError
| AttributeError
| JSONDecodeError
| ConnectionError (message : string)
| RecursionError.

(** A value, or the exception raised instead. *)
Definition pyres (A : Type) : Type := (A + pyexn)%type.

Definition bind_res {A B} (r : pyres A) (k : A -> pyres B) : pyres B :=
  match r with
  | inl a => k a
  | inr e => inr e
  end.

Notation "'let*' x ':=' r 'in' k" := (bind_res r (fun x => k))
  (at level 10, x name, r at level 200, k at level 200).

(* ================================================================== *)
(** ** Printing an int *)

(** The decimal numeral of an int. *)
Definition decimal (z : Z) : string :=
  NilZero.string_of_int (Z.to_int z).

(** [sys.get_int_max_str_digits()], at its default (CPython 3.11 and
    later). *)
Definition int_max_str_digits : Z := 4300.

(** Whether [z] has at most [int_max_str_digits] decimal digits. *)
Definition fits_str_digits (z : Z) : bool :=
  Z.abs z <? 10 ^ int_max_str_digits.

(** [str(z)] for an int, also inside an f-string: CPython refuses to
    print an int of more than [int_max_str_digits] digits and raises
    [ValueError]. *)
Definition str_of_int (z : Z) : pyres string :=
  if fits_str_digits z then inl (decimal z) else inr ValueError.

(* ================================================================== *)
(** ** Fixed-width numerals

    ['%032x' % n], ['%04d' % n], ['%02d' % n] and ['%06d' % n] print
    [n] in a base with leading zeros.  For [0 <= n < base ^ w], the
    only arguments the [uuid] and [datetime] modules pass, the result
    has exactly [w] digits, most significant first: the digit of
    weight [base ^ (w - 1)], then the rest of [n] on [w - 1] digits. *)

Definition digit_chars : list ascii :=
  ["0"; "1"; "2"; "3"; "4"; "5"; "6"; "7"; "8"; "9";
   "a"; "b"; "c"; "d"; "e"; "f"]%char.

Definition digit_char (d : Z) : ascii :=
  nth (Z.to_nat d) digit_chars "0"%char.

(** The digits of base 16. *)
Definition digits16 : list Z := map Z.of_nat (seq 0 16).

Fixpoint zfill (base : Z) (w : nat) (n : Z) : string :=
  match w with
  | O => EmptyString
  | S w' => String (digit_char ((n / base ^ Z.of_nat w') mod base))
                   (zfill base w' (n mod base ^ Z.of_nat w'))
  end.

(* ================================================================== *)
(** ** The [uuid] module *)

Module UUID.

(** [UUID.__init__(bytes=..., version=4)]: the variant and version
    bits of the 128-bit integer are overwritten. *)
Definition set_version4 (int : Z) : Z :=
  let int := Z.land int (Z.lnot (Z.shiftl 0xc000 48)) in
  let int := Z.lor int (Z.shiftl 0x8000 48) in
  let int := Z.land int (Z.lnot (Z.shiftl 0xf000 64)) in
  Z.lor int (Z.shiftl 4 76).

(** The 122 bits of the integer that [set_version4] keeps. *)
Definition random_bits_mask : Z :=
  Z.land (Z.ones 128)
         (Z.land (Z.lnot (Z.shiftl 0xc000 48)) (Z.lnot (Z.shiftl 0xf000 64))).

(** The bits [set_version4] writes. *)
Definition version4_bits : Z := Z.lor (Z.shiftl 0x8000 48) (Z.shiftl 4 76).

(** [UUID.__str__]: 32 hex digits cut 8-4-4-4-12. *)
Definition str (int : Z) : string :=
  let hex := zfill 16 32 int in
  substring 0 8 hex ++ "-" ++ substring 8 4 hex ++ "-" ++
  substring 12 4 hex ++ "-" ++ substring 16 4 hex ++ "-" ++
  substring 20 (String.length hex - 20) hex.

End UUID.

(* ================================================================== *)
(** ** The [datetime] module *)

Record datetime : Type := mkDatetime {
  year : Z; month : Z; day : Z;
  hour : Z; minute : Z; second : Z; microsecond : Z
}.

(** The ranges the [datetime] constructor checks. *)
Definition valid_datetime (d : datetime) : Prop :=
  1 <= year d <= 9999 /\ 1 <= month d <= 12 /\ 1 <= day d <= 31 /\
  0 <= hour d < 24 /\ 0 <= minute d < 60 /\ 0 <= second d < 60 /\
  0 <= microsecond d < 1000000.

(** [datetime.isoformat()] of a naive datetime, separator [T],
    timespec [auto]: the microseconds are printed only when they are
    not zero. *)
Definition isoformat (d : datetime) : string :=
  zfill 10 4 (year d) ++ "-" ++ zfill 10 2 (month d) ++ "-" ++
  zfill 10 2 (day d) ++ "T" ++ zfill 10 2 (hour d) ++ ":" ++
  zfill 10 2 (minute d) ++ ":" ++ zfill 10 2 (second d) ++
  (if microsecond d =? 0 then EmptyString
   else "." ++ zfill 10 6 (microsecond d)).

(** Lexicographic comparison of two lists of integers. *)
Fixpoint lex_compare (xs ys : list Z) : comparison :=
  match xs, ys with
  | [], [] => Eq
  | [], _ :: _ => Lt
  | _ :: _, [] => Gt
  | x :: xs', y :: ys' =>
      match x ?= y with Eq => lex_compare xs' ys' | c => c end
  end.

Definition datetime_fields (d : datetime) : list Z :=
  [year d; month d; day d; hour d; minute d; second d; microsecond d].

(** [datetime.__lt__] and friends compare the fields in this order. *)
Definition datetime_compare (d1 d2 : datetime) : comparison :=
  lex_compare (datetime_fields d1) (datetime_fields d2).

Definition datetime_le (d1 d2 : datetime) : Prop :=
  datetime_compare d1 d2 <> Gt.

(** [s1 <= s2] on Python strings (by code point). *)
Definition str_le (s1 s2 : string) : Prop := String.compare s1 s2 <> Gt.

(* ================================================================== *)
(** ** The process state and the coroutine monad *)

Record World : Type := mkWorld {
  (** [os_urandom w n]: the [n]-th 16-byte read of the entropy pool,
      as the big-endian integer [int.from_bytes] makes of it *)
  os_urandom : nat -> Z;
  urandom_reads : nat;
  (** [system_clock w n]: the [n]-th reading of the UTC wall clock *)
  system_clock : nat -> datetime;
  clock_reads : nat;
  (** the texts given to [print] so far, oldest first, one entry per
      call of [print]; each is written followed by a line feed, and a
      text may hold line feeds of its own *)
  stdout : list string
}.

Definition Py (A : Type) : Type := World -> A * World.

Definition ret {A} (a : A) : Py A := fun w => (a, w).

Definition bind {A B} (m : Py A) (k : A -> Py B) : Py B :=
  fun w => let (a, w') := m w in k a w'.

(** Sequencing where the first part can raise: an exception ends the
    whole. *)
Definition bind_try {A B} (m : Py (pyres A)) (k : A -> Py (pyres B))
  : Py (pyres B) :=
  fun w => match m w with
           | (inl a, w') => k a w'
           | (inr e, w') => (inr e, w')
           end.

Declare Scope py_scope.
Delimit Scope py_scope with py.
Notation "x <- m ;; k" := (bind m (fun x => k))
  (at level 61, m at next level, right associativity) : py_scope.
Notation "m ;;; k" := (bind m (fun _ => k))
  (at level 61, right associativity) : py_scope.
Notation "x <-? m ;; k" := (bind_try m (fun x => k))
  (at level 61, m at next level, right associativity) : py_scope.
Open Scope py_scope.

(** [uuid.uuid4()]: [UUID(bytes=os.urandom(16), version=4)]. *)
Definition uuid4 : Py Z := fun w =>
  let bytes := os_urandom w (urandom_reads w) mod 2 ^ 128 in
  (UUID.set_version4 bytes,
   mkWorld (os_urandom w) (S (urandom_reads w))
           (system_clock w) (clock_reads w) (stdout w)).

(** [datetime.utcnow()] *)
Definition utcnow : Py datetime := fun w =>
  (system_clock w (clock_reads w),
   mkWorld (os_urandom w) (urandom_reads w)
           (system_clock w) (S (clock_reads w)) (stdout w)).

(** [print(line)] *)
Definition print (line : string) : Py unit := fun w =>
  (tt, mkWorld (os_urandom w) (urandom_reads w)
               (system_clock w) (clock_reads w) (stdout w ++ [line])).

(** The process after the texts [out] have been printed. *)
Definition with_stdout (w : World) (out : list string) : World :=
  mkWorld (os_urandom w) (urandom_reads w) (system_clock w) (clock_reads w)
          (stdout w ++ out).

(* ================================================================== *)
(** ** [class MockAmpClient] *)

Module MockAmpClient.

(** [async def create_symbol(self, name, kind, path, language)] *)
Definition create_symbol (name kind path language : string) : Py pyval :=
  id <- uuid4 ;;
  created_at <- utcnow ;;
  updated_at <- utcnow ;;
  let symbol : pydict :=
    [ ("id", PStr (UUID.str id));
      ("type", PStr "symbol");
      ("tenant_id", PStr "default");
      ("project_id", PStr "example_project");
      ("created_at", PStr (isoformat created_at));
      ("updated_at", PStr (isoformat updated_at));
      ("provenance", PDict
         [ ("agent", PStr "python_example");
           ("summary", PStr ("Created symbol " ++ name)) ]);
      ("name", PStr name);
      ("kind", PStr kind);
      ("path", PStr path);
      ("language", PStr language) ] in
  print ("Created symbol: " ++ name ++ " (" ++ UUID.str id ++ ")") ;;;
  ret (PDict symbol).

(** [async def create_decision(self, title, problem, rationale, outcome)] *)
Definition create_decision (title problem rationale outcome : string)
  : Py pyval :=
  id <- uuid4 ;;
  created_at <- utcnow ;;
  updated_at <- utcnow ;;
  let decision : pydict :=
    [ ("id", PStr (UUID.str id));
      ("type", PStr "decision");
      ("tenant_id", PStr "default");
      ("project_id", PStr "example_project");
      ("created_at", PStr (isoformat created_at));
      ("updated_at", PStr (isoformat updated_at));
      ("provenance", PDict
         [ ("agent", PStr "python_example");
           ("summary", PStr ("Made decision: " ++ title)) ]);
      ("title", PStr title);
      ("problem", PStr problem);
      ("rationale", PStr rationale);
      ("outcome", PStr outcome);
      ("status", PStr "accepted") ] in
  print ("Created decision: " ++ title ++ " (" ++ UUID.str id ++ ")") ;;;
  ret (PDict decision).

(** [async def query_objects(self, text, limit=10)]: the f-string of
    its first statement prints [limit], which raises for an int of too
    many digits, before anything is printed or read. *)
Definition query_objects (text : string) (limit : Z) : Py (pyres pyval) :=
  shown <-? ret (str_of_int limit) ;;
  print ("Querying for: '" ++ text ++ "' (limit: " ++ shown ++ ")") ;;;
  trace_id <- uuid4 ;;
  ret (inl (PDict
    [ ("results", PList []);
      ("trace_id", PStr (UUID.str trace_id));
      ("total_count", PInt 0);
      ("execution_time_ms", PInt 42) ])).

(** The default of the [limit] parameter. *)
Definition default_limit : Z := 10.

End MockAmpClient.

(* ================================================================== *)
(** ** Reading the returned objects, and client sessions *)

(** [obj[key]] on a returned object. *)
Definition field (key : string) (obj : pyval) : option pyval :=
  match obj with
  | PDict d => dict_get key d
  | _ => None
  end.

(** [obj[key1][key2]] *)
Definition field2 (key1 key2 : string) (obj : pyval) : option pyval :=
  match field key1 obj with
  | Some inner => field key2 inner
  | None => None
  end.

(** The object without the binding of [key]. *)
Definition without (key : string) (obj : pyval) : pyval :=
  match obj with
  | PDict d => PDict (dict_remove key d)
  | _ => obj
  end.

(** The 16 bytes the next call of [uuid.uuid4] reads. *)
Definition next_urandom (w : World) : Z := os_urandom w (urandom_reads w).

(** One awaited call of the client. *)
Inductive call : Type :=
| CreateSymbol (name kind path language : string)
| CreateDecision (title problem rationale outcome : string)
| QueryObjects (text : string) (limit : Z).

Definition perform (c : call) : Py (pyres pyval) :=
  match c with
  | CreateSymbol name kind path language =>
      r <- MockAmpClient.create_symbol name kind path language ;;
      ret (inl r)
  | CreateDecision title problem rationale outcome =>
      r <- MockAmpClient.create_decision title problem rationale outcome ;;
      ret (inl r)
  | QueryObjects text limit => MockAmpClient.query_objects text limit
  end.

(** A session: calls awaited one after the other, as [main] does; an
    exception of one call ends it. *)
Fixpoint session (cs : list call) : Py (pyres (list pyval)) :=
  match cs with
  | [] => ret (inl [])
  | c :: cs' =>
      r <-? perform c ;;
      rs <-? session cs' ;;
      ret (inl (r :: rs))
  end.

(** Whether a call creates an object. *)
Definition is_creation (c : call) : bool :=
  match c with
  | QueryObjects _ _ => false
  | _ => true
  end.

(** Whether a call can print all it prints: a query prints its
    [limit]. *)
Definition call_fits (c : call) : bool :=
  match c with
  | QueryObjects _ limit => fits_str_digits limit
  | _ => true
  end.

(** The [id] of a created object, the [trace_id] of a query result. *)
Definition identifier (c : call) (r : pyval) : option pyval :=
  match c with
  | QueryObjects _ _ => field "trace_id" r
  | _ => field "id" r
  end.

(** The hexadecimal digits of a UUID string. *)
Definition is_hex_digit (c : ascii) : bool :=
  existsb (Ascii.eqb c) digit_chars.

(** *** Sample worlds *)

(** An entropy pool whose first two reads differ in the version
    nibble only, and a clock that ticks a microsecond per reading. *)
Definition colliding_world : World :=
  mkWorld (fun n => match n with O => 0 | _ => 2 ^ 76 end) 0
          (fun n => mkDatetime 2024 1 1 0 0 0 (Z.of_nat n)) 0 [].

(** An entropy pool that counts, and a clock that ticks a microsecond
    per reading. *)
Definition ticking_world : World :=
  mkWorld (fun n => Z.of_nat n) 0
          (fun n => mkDatetime 2024 1 1 0 0 0 (Z.of_nat n)) 0 [].

(** A clock that is set back by one second after its first reading. *)
Definition stepped_back_world : World :=
  mkWorld (fun n => Z.of_nat n) 0
          (fun n => match n with
                    | O => mkDatetime 2024 1 1 0 0 1 0
                    | _ => mkDatetime 2024 1 1 0 0 0 0
                    end) 0 [].

(** An int of 4301 digits, one more than [str] prints. *)
Definition huge_int : Z := 10 ^ 4300.

(* ================================================================== *)
(** ** Dynamic typing *)

Definition LF : ascii := ascii_of_nat 10.

(** [obj[key]] for a string key: a dict looks the key up, a list or a
    string wants integer indices, the other values have no
    subscript. *)
Definition subscript (obj : pyval) (key : string) : pyres pyval :=
  match obj with
  | PDict d =>
      match dict_get key d with
      | Some v => inl v
      | None => inr (KeyError key)
      end
  | _ => inr TypeError
  end.

(** [v + 1]: an int gives an int, a boolean counts as 0 or 1, a float
    gives a float; the other values cannot be added to an int. *)
Definition add_one (v : pyval) : pyres pyval :=
  match v with
  | PInt z => inl (PInt (z + 1))
  | PBool b => inl (PInt (Z.b2z b + 1))
  | PFloat f => inl (PFloat (PrimFloat.add f PrimFloat.one))
  | _ => inr TypeError
  end.

(** [str(v)], as an f-string prints [v]: a string as it is, an int in
    decimal when it has few enough digits, [None] and the booleans by
    name; [repr] stands for what Python prints for a float, a list or
    a dict, or raises while printing it, which this development does
    not spell out. *)
Definition py_str (repr : pyval -> pyres string) (v : pyval)
  : pyres string :=
  match v with
  | PStr s => inl s
  | PInt z => str_of_int z
  | PBool true => inl "True"
  | PBool false => inl "False"
  | PNone => inl "None"
  | _ => repr v
  end.

(** A byte of the form [10xxxxxx], which continues a UTF-8 character. *)
Definition is_continuation_byte (c : ascii) : bool :=
  match c with
  | Ascii _ _ _ _ _ _ false true => true
  | _ => false
  end.

(** The characters of a string, whose bytes are its UTF-8 encoding. *)
Fixpoint characters (s : string) : list string :=
  match s with
  | EmptyString => []
  | String c s' =>
      let chs := characters s' in
      match s', chs with
      | String c' _, ch :: chs' =>
          if is_continuation_byte c' then String c ch :: chs'
          else String c EmptyString :: chs
      | _, _ => String c EmptyString :: chs
      end
  end.

(** The keys of a dict, each once, a key's first binding being the one
    [dict_get] reads. *)
Fixpoint dict_keys (d : pydict) : list string :=
  match d with
  | [] => []
  | (k, _) :: d' =>
      k :: filter (fun k' => negb (String.eqb k k')) (dict_keys d')
  end.

(** What [for x in v] and [[... for x in v]] go through. *)
Definition iterate (v : pyval) : pyres (list pyval) :=
  match v with
  | PList l => inl l
  | PDict d => inl (map PStr (dict_keys d))
  | PStr s => inl (map PStr (characters s))
  | _ => inr TypeError
  end.

(** [len(v)] *)
Definition py_len (v : pyval) : pyres nat :=
  match v with
  | PList l => inl (List.length l)
  | PDict d => inl (List.length (dict_keys d))
  | PStr s => inl (List.length (characters s))
  | _ => inr TypeError
  end.

(** [s * n] on strings. *)
Fixpoint str_repeat (s : string) (n : nat) : string :=
  match n with
  | O => EmptyString
  | S n' => s ++ str_repeat s n'
  end.

(* ================================================================== *)
(** ** [main] of [amp/examples/python_basic.py] *)

(** [async def main()]; an exception of the query, of the two
    subscripts of [results] or of printing their values would end
    it. *)
Definition main (repr : pyval -> pyres string) : Py (pyres unit) :=
  print "🚀 AMP Python SDK Example" ;;;
  print (str_repeat "=" 40) ;;;
  print (String LF "📝 Creating symbols...") ;;;
  main_fn <- MockAmpClient.create_symbol
               "main" "function" "src/main.rs" "rust" ;;
  config_struct <- MockAmpClient.create_symbol
                     "Config" "type" "src/config.rs" "rust" ;;
  print (String LF "🤔 Making a decision...") ;;;
  decision <- MockAmpClient.create_decision
    "Choose database for AMP"
    "Need a database that supports vector search and graph relations"
    "SurrealDB provides both vector indexing and graph capabilities in a single system"
    "Use SurrealDB as the storage backend" ;;
  print (String LF "🔍 Querying memory...") ;;;
  results <-? MockAmpClient.query_objects "rust functions"
                MockAmpClient.default_limit ;;
  report <-? ret (let* total_count := subscript results "total_count" in
                  let* shown_count := py_str repr total_count in
                  let* ms := subscript results "execution_time_ms" in
                  let* shown_ms := py_str repr ms in
                  inl ("Query returned " ++ shown_count ++ " results in "
                       ++ shown_ms ++ "ms")) ;;
  print report ;;;
  print (String LF "✅ Example completed!") ;;;
  print (String LF "Next steps:") ;;;
  print "1. Start the AMP server: cd server && cargo run" ;;;
  print "2. Generate the real SDK: ./scripts/generate-sdks.sh" ;;;
  print "3. Replace MockAmpClient with the generated SDK" ;;;
  ret (inl tt).

(* ================================================================== *)
(** ** [amp/test_parser_fix.py] *)

(** ['unknown' in symbol_types] *)
Definition has_unknown (symbol_types : list string) : bool :=
  existsb (String.eqb "unknown") symbol_types.

(** What [test_parser_fix] returns, from the status code of the
    response and the [symbol_type] of each symbol in its body. *)
Definition test_parser_fix (status_code : Z) (symbol_types : list string)
  : bool :=
  if status_code =? 200 then
    if has_unknown symbol_types then false else true
  else false.

(** What [requests.post] returned: [json] is the decoded body, [None]
    when the body is not JSON and [response.json()] raises. *)
Record Response : Type := mkResponse {
  status_code : Z;
  text : string;
  json : option pyval
}.

(** [response.json()] *)
Definition response_json (response : Response) : pyres pyval :=
  match json response with
  | Some v => inl v
  | None => inr JSONDecodeError
  end.

(** [result.get('symbols', [])]: only a dict has [get]. *)
Definition get_symbols (result : pyval) : pyres pyval :=
  match result with
  | PDict d =>
      inl (match dict_get "symbols" d with
           | Some v => v
           | None => PList []
           end)
  | _ => inr AttributeError
  end.

(** The text the test prints for one symbol:
    [f"  - {symbol['symbol_type']}: {symbol['name']} (line {symbol['start_line'] + 1})"],
    each field evaluated and printed before the next is evaluated. *)
Definition symbol_line (repr : pyval -> pyres string) (symbol : pyval)
  : pyres string :=
  let* symbol_type := subscript symbol "symbol_type" in
  let* shown_type := py_str repr symbol_type in
  let* name := subscript symbol "name" in
  let* shown_name := py_str repr name in
  let* start_line := subscript symbol "start_line" in
  let* line := add_one start_line in
  let* shown_line := py_str repr line in
  inl ("  - " ++ shown_type ++ ": " ++ shown_name
       ++ " (line " ++ shown_line ++ ")").

(** The [for symbol in ...: print(...)] loop. *)
Fixpoint print_symbols (repr : pyval -> pyres string)
    (symbols : list pyval) : Py (pyres unit) :=
  match symbols with
  | [] => ret (inl tt)
  | symbol :: rest =>
      l <-? ret (symbol_line repr symbol) ;;
      print l ;;;
      print_symbols repr rest
  end.

(** [[s['symbol_type'] for s in ...]] *)
Fixpoint symbol_types_of (symbols : list pyval) : pyres (list pyval) :=
  match symbols with
  | [] => inl []
  | s :: rest =>
      let* t := subscript s "symbol_type" in
      let* ts := symbol_types_of rest in
      inl (t :: ts)
  end.

(** ['unknown' in symbol_types], on values of any type. *)
Definition unknown_in (symbol_types : list pyval) : bool :=
  existsb (fun v => match v with
                    | PStr s => String.eqb "unknown" s
                    | _ => false
                    end) symbol_types.

(** The body of [test_parser_fix] once [requests.post] has returned
    [response]: what it prints, and what it returns or raises.  (The
    temporary file it removes at the end is outside this state.)  The
    count [len] returns is a machine-size int, which [str] always
    prints. *)
Definition test_parser_fix_on (repr : pyval -> pyres string)
    (response : Response) : Py (pyres bool) :=
  if status_code response =? 200 then
    result <-? ret (response_json response) ;;
    print "✅ Parser test successful!" ;;;
    n <-? ret (let* symbols := get_symbols result in py_len symbols) ;;
    print ("Found " ++ decimal (Z.of_nat n) ++ " symbols:") ;;;
    symbols <-? ret (let* symbols := get_symbols result in
                     iterate symbols) ;;
    _ <-? print_symbols repr symbols ;;
    symbol_types <-? ret (symbol_types_of symbols) ;;
    if unknown_in symbol_types then
      print "❌ Still finding 'unknown' symbol types" ;;;
      ret (inl false)
    else
      print "✅ All symbols have proper types!" ;;;
      ret (inl true)
  else
    shown <-? ret (str_of_int (status_code response)) ;;
    print ("❌ Parser test failed: " ++ shown) ;;;
    print (text response) ;;;
    ret (inl false).

(** What the loop prints for [symbols] before it ends or raises, and
    how it ends. *)
Fixpoint symbol_lines (repr : pyval -> pyres string)
    (symbols : list pyval) : list string * pyres unit :=
  match symbols with
  | [] => ([], inl tt)
  | symbol :: rest =>
      match symbol_line repr symbol with
      | inr e => ([], inr e)
      | inl l => let (ls, r) := symbol_lines repr rest in (l :: ls, r)
      end
  end.

(** A symbol as the parse endpoint sends it: a dict that has, among
    its keys, a string [symbol_type], a string [name] and an int
    [start_line] whose successor [str] prints. *)
Definition wellformed_symbol (symbol : pyval)
    (entry : string * string * Z) : Prop :=
  exists d : pydict,
    symbol = PDict d /\
    dict_get "symbol_type" d = Some (PStr (fst (fst entry))) /\
    dict_get "name" d = Some (PStr (snd (fst entry))) /\
    dict_get "start_line" d = Some (PInt (snd entry)) /\
    fits_str_digits (snd entry + 1) = true.

(** The text printed for a well-formed symbol. *)
Definition entry_line (entry : string * string * Z) : string :=
  "  - " ++ fst (fst entry) ++ ": " ++ snd (fst entry)
  ++ " (line " ++ decimal (snd entry + 1) ++ ")".

(* ================================================================== *)
(** ** [test-repo/python/sample.py] *)

Module Sample.

(** [calculate_fibonacci(n)], run with room for [depth] more frames on
    the interpreter's stack: a call that finds no room raises
    [RecursionError]. *)
Fixpoint calculate_fibonacci (depth : nat) (n : Z) : pyres Z :=
  match depth with
  | O => inr RecursionError
  | S depth' =>
      if n <=? 1 then inl n
      else
        let* a := calculate_fibonacci depth' (n - 1) in
        let* b := calculate_fibonacci depth' (n - 2) in
        inl (a + b)
  end.

(** The Fibonacci numbers by iteration: [fib_pair k = (F k, F (k + 1))]. *)
Fixpoint fib_pair (k : nat) : Z * Z :=
  match k with
  | O => (0, 1)
  | S k' => let (a, b) := fib_pair k' in (b, a + b)
  end.

(** An object given as [filter_fn]: its truth value, which [if
    filter_fn:] tests, and what calling it does when it is callable
    (the truth value of what the call returns).  A function is true;
    [None] is false and not callable. *)
Record filter_object (A : Type) : Type := mkFilter {
  truth_value : bool;
  call_on : option (A -> bool)
}.
Arguments mkFilter {A} _ _.
Arguments truth_value {A} _.
Arguments call_on {A} _.

(** [None] as [filter_fn], the default. *)
Definition no_filter {A : Type} : filter_object A := mkFilter false None.

(** A Python function as [filter_fn]. *)
Definition function_filter {A : Type} (f : A -> bool) : filter_object A :=
  mkFilter true (Some f).

(** [process_data(data, filter_fn=None)]: a false [filter_fn] is not
    called; a true one is called on each item, which raises
    [TypeError] at the first item when it is not callable. *)
Definition process_data {A : Type} (data : list A)
    (filter_fn : filter_object A) : pyres (list A) :=
  if truth_value filter_fn then
    match call_on filter_fn with
    | Some f => inl (filter f data)
    | None =>
        match data with
        | [] => inl []
        | _ :: _ => inr TypeError
        end
    end
  else inl data.

(** [class DatabaseConnection]: [_connection] is [None] or [True]. *)
Record DatabaseConnection : Type := mkDatabaseConnection {
  host : string;
  port : Z;
  _connection : option bool
}.

(** The truth value of [self._connection]. *)
Definition connected (self : DatabaseConnection) : bool :=
  match _connection self with
  | Some b => b
  | None => false
  end.

(** [DatabaseConnection.__init__] *)
Definition init (host : string) (port : Z) : DatabaseConnection :=
  mkDatabaseConnection host port None.

(** [DatabaseConnection.connect]: the object afterwards and the value
    returned; printing the port comes first and can raise, which
    leaves the object as it was. *)
Definition connect (self : DatabaseConnection)
  : Py (pyres (DatabaseConnection * bool)) :=
  shown <-? ret (str_of_int (port self)) ;;
  print ("Connecting to " ++ host self ++ ":" ++ shown) ;;;
  ret (inl (mkDatabaseConnection (host self) (port self) (Some true), true)).

(** [DatabaseConnection.disconnect] *)
Definition disconnect (self : DatabaseConnection) : Py DatabaseConnection :=
  if connected self then
    print "Disconnected" ;;;
    ret (mkDatabaseConnection (host self) (port self) None)
  else ret self.

(** [DatabaseConnection.execute_query]: the rows, always none. *)
Definition execute_query (self : DatabaseConnection) (query : string)
  : pyres (list pydict) :=
  if negb (connected self) then
    inr (ConnectionError "Not connected to database")
  else inl [].

(** A use of a connection: one of its three methods. *)
Inductive db_call : Type :=
| Connect
| Disconnect
| ExecuteQuery (query : string).

(** One method call on [self]: the object afterwards, and whether the
    call raised. *)
Definition db_step (self : DatabaseConnection) (c : db_call)
  : Py (DatabaseConnection * bool) :=
  match c with
  | Connect =>
      fun w => match connect self w with
               | (inl r, w') => ((fst r, false), w')
               | (inr _, w') => ((self, true), w')
               end
  | Disconnect => self' <- disconnect self ;; ret (self', false)
  | ExecuteQuery q =>
      ret (self, match execute_query self q with
                 | inl _ => false
                 | inr _ => true
                 end)
  end.

(** Method calls one after the other, an exception of one being
    caught by the caller: the object afterwards. *)
Fixpoint db_run (self : DatabaseConnection) (cs : list db_call)
  : Py DatabaseConnection :=
  match cs with
  | [] => ret self
  | c :: cs' => r <- db_step self c ;; db_run (fst r) cs'
  end.

(** The last [Connect] or [Disconnect] among the calls, if any, is a
    [Connect]. *)
Fixpoint ends_connected (initially : bool) (cs : list db_call) : bool :=
  match cs with
  | [] => initially
  | Connect :: cs' => ends_connected true cs'
  | Disconnect :: cs' => ends_connected false cs'
  | ExecuteQuery _ :: cs' => ends_connected initially cs'
  end.

End Sample.

(* ================================================================== *)
(** * Properties of the runtime *)

(** ** Strings *)

Lemma ascii_compare_refl (c : ascii) : Ascii.compare c c = Eq.
Proof. unfold Ascii.compare. apply N.compare_refl. Qed.

Lemma string_compare_refl (s : string) : String.compare s s = Eq.
Proof.
  induction s as [|c s IH]; simpl; [reflexivity|].
  now rewrite ascii_compare_refl.
Qed.

Lemma string_length_app (s t : string) :
  String.length (s ++ t) = (String.length s + String.length t)%nat.
Proof. induction s as [|c s IH]; simpl; [reflexivity | now rewrite IH]. Qed.

Lemma string_app_nil_r (s : string) : s ++ EmptyString = s.
Proof. induction s as [|c s IH]; simpl; [reflexivity | now rewrite IH]. Qed.

Lemma string_app_inj (s s' t t' : string) :
  String.length s = String.length s' -> s ++ t = s' ++ t' -> s = s' /\ t = t'.
Proof.
  revert s'. induction s as [|c s IH]; intros [|c' s'] Hlen H;
    simpl in *; try discriminate.
  - now split.
  - injection H as -> H. injection Hlen as Hlen.
    destruct (IH s' Hlen H) as [-> ->]. now split.
Qed.

Lemma substring_length (s : string) (n m : nat) :
  (n + m <= String.length s)%nat -> String.length (substring n m s) = m.
Proof.
  revert n m. induction s as [|c s IH]; intros [|n] [|m] H; simpl in *;
    try reflexivity; try lia.
  - rewrite IH; [reflexivity | lia].
  - apply IH. lia.
  - apply IH. lia.
Qed.

(** Two adjacent slices make one slice. *)
Lemma substring_app (s : string) (n m k : nat) :
  (n + m + k <= String.length s)%nat ->
  substring n m s ++ substring (n + m) k s = substring n (m + k) s.
Proof.
  revert n m k. induction s as [|c s IH]; intros n m k H; simpl in H.
  - assert (n = 0 /\ m = 0 /\ k = 0)%nat as (-> & -> & ->) by lia.
    reflexivity.
  - destruct n as [|n]; [destruct m as [|m]|].
    + reflexivity.
    + change (String c (substring 0 m s ++ substring (0 + m) k s)
              = String c (substring 0 (m + k) s)).
      f_equal. apply IH. simpl. lia.
    + change (substring n m s ++ substring (n + m) k s
              = substring n (m + k) s).
      apply IH. lia.
Qed.

Lemma substring_all (s : string) : substring 0 (String.length s) s = s.
Proof. induction s as [|c s IH]; simpl; [reflexivity | now rewrite IH]. Qed.

(** ** Fixed-width numerals *)

Lemma zfill_length (base : Z) (w : nat) (n : Z) :
  String.length (zfill base w n) = w.
Proof. revert n. induction w as [|w IH]; intros n; simpl; [reflexivity | now rewrite IH]. Qed.

Lemma digit_char_compare_all :
  forallb (fun x => forallb (fun y =>
    match Ascii.compare (digit_char x) (digit_char y), x ?= y with
    | Eq, Eq | Lt, Lt | Gt, Gt => true
    | _, _ => false
    end) digits16) digits16 = true.
Proof. vm_compute. reflexivity. Qed.

Lemma in_digits16 (x : Z) : 0 <= x < 16 -> In x digits16.
Proof.
  intros H. unfold digits16. apply in_map_iff. exists (Z.to_nat x).
  split; [lia | apply in_seq; lia].
Qed.

(** The digit characters are ordered like the digits. *)
Lemma digit_char_compare (x y : Z) :
  0 <= x < 16 -> 0 <= y < 16 ->
  Ascii.compare (digit_char x) (digit_char y) = (x ?= y).
Proof.
  intros Hx Hy.
  pose proof digit_char_compare_all as H.
  rewrite forallb_forall in H. specialize (H x (in_digits16 x Hx)).
  rewrite forallb_forall in H. specialize (H y (in_digits16 y Hy)).
  destruct (Ascii.compare (digit_char x) (digit_char y)), (x ?= y);
    congruence.
Qed.

(** Fixed-width numerals compare like the numbers they print, whatever
    follows them. *)
Lemma zfill_compare_app (base : Z) (w : nat) :
  2 <= base <= 16 ->
  forall (a b : Z) (s t : string),
    0 <= a < base ^ Z.of_nat w -> 0 <= b < base ^ Z.of_nat w ->
    String.compare (zfill base w a ++ s) (zfill base w b ++ t) =
    match a ?= b with Eq => String.compare s t | c => c end.
Proof.
  intros Hbase. induction w as [|w IH]; intros a b s t Ha Hb.
  - simpl in *. assert (a = 0) as -> by lia. assert (b = 0) as -> by lia.
    reflexivity.
  - rewrite Nat2Z.inj_succ, Z.pow_succ_r in Ha, Hb by lia.
    set (p := base ^ Z.of_nat w) in *.
    assert (Hp : 0 < p) by (apply Z.pow_pos_nonneg; lia).
    pose proof (Z.div_mod a p ltac:(lia)) as Ea.
    pose proof (Z.div_mod b p ltac:(lia)) as Eb.
    pose proof (Z.mod_pos_bound a p Hp) as Ra.
    pose proof (Z.mod_pos_bound b p Hp) as Rb.
    assert (Da : 0 <= a / p < base)
      by (split; [apply Z.div_pos; lia | apply Z.div_lt_upper_bound; lia]).
    assert (Db : 0 <= b / p < base)
      by (split; [apply Z.div_pos; lia | apply Z.div_lt_upper_bound; lia]).
    cbn [zfill append String.compare]. fold p.
    rewrite (Z.mod_small (a / p)), (Z.mod_small (b / p)) by lia.
    rewrite digit_char_compare by lia.
    rewrite IH by lia.
    destruct (Z.compare_spec (a / p) (b / p)) as [E|L|L].
    + rewrite E in Ea.
      destruct (Z.compare_spec (a mod p) (b mod p)) as [E'|L'|L'];
        destruct (Z.compare_spec a b); try reflexivity; lia.
    + destruct (Z.compare_spec a b); try reflexivity; nia.
    + destruct (Z.compare_spec a b); try reflexivity; nia.
Qed.

Lemma zfill_compare (base : Z) (w : nat) (a b : Z) :
  2 <= base <= 16 ->
  0 <= a < base ^ Z.of_nat w -> 0 <= b < base ^ Z.of_nat w ->
  String.compare (zfill base w a) (zfill base w b) = (a ?= b).
Proof.
  intros Hbase Ha Hb.
  pose proof (zfill_compare_app base w Hbase a b EmptyString EmptyString Ha Hb)
    as H.
  rewrite !string_app_nil_r in H. rewrite H.
  now destruct (a ?= b).
Qed.

Lemma zfill_inj (base : Z) (w : nat) (a b : Z) :
  2 <= base <= 16 ->
  0 <= a < base ^ Z.of_nat w -> 0 <= b < base ^ Z.of_nat w ->
  zfill base w a = zfill base w b -> a = b.
Proof.
  intros Hbase Ha Hb E. apply Z.compare_eq.
  rewrite <- (zfill_compare base w a b Hbase Ha Hb), E.
  apply string_compare_refl.
Qed.

(** ** [datetime]: the ISO strings are ordered like the datetimes *)

Example isoformat_whole_second :
  isoformat (mkDatetime 2026 11 3 9 5 0 0) = "2026-11-03T09:05:00".
Proof. reflexivity. Qed.

Example isoformat_microseconds :
  isoformat (mkDatetime 987 1 2 23 59 59 1500) = "0987-01-02T23:59:59.001500".
Proof. reflexivity. Qed.

Lemma isoformat_compare (d1 d2 : datetime) :
  valid_datetime d1 -> valid_datetime d2 ->
  String.compare (isoformat d1) (isoformat d2) = datetime_compare d1 d2.
Proof.
  intros (Hy1 & Hm1 & Hd1 & Hh1 & Hn1 & Hs1 & Hu1)
         (Hy2 & Hm2 & Hd2 & Hh2 & Hn2 & Hs2 & Hu2).
  unfold isoformat, datetime_compare, datetime_fields.
  cbn [lex_compare].
  assert (B : 2 <= 10 <= 16) by lia.
  repeat (rewrite (zfill_compare_app 10 _ B) by (simpl; lia);
          cbn [append String.compare]; rewrite ?ascii_compare_refl).
  destruct (year d1 ?= year d2); try reflexivity.
  destruct (month d1 ?= month d2); try reflexivity.
  destruct (day d1 ?= day d2); try reflexivity.
  destruct (hour d1 ?= hour d2); try reflexivity.
  destruct (minute d1 ?= minute d2); try reflexivity.
  destruct (second d1 ?= second d2); try reflexivity.
  destruct (Z.eqb_spec (microsecond d1) 0) as [E1|N1];
    destruct (Z.eqb_spec (microsecond d2) 0) as [E2|N2].
  - rewrite E1, E2. reflexivity.
  - cbn [append String.compare].
    destruct (Z.compare_spec (microsecond d1) (microsecond d2));
      try reflexivity; lia.
  - cbn [append String.compare].
    destruct (Z.compare_spec (microsecond d1) (microsecond d2));
      try reflexivity; lia.
  - cbn [append String.compare]. rewrite ascii_compare_refl.
    rewrite zfill_compare by (simpl; lia).
    now destruct (microsecond d1 ?= microsecond d2).
Qed.

Lemma isoformat_le (d1 d2 : datetime) :
  valid_datetime d1 -> valid_datetime d2 ->
  datetime_le d1 d2 -> str_le (isoformat d1) (isoformat d2).
Proof.
  intros V1 V2 H. unfold str_le. now rewrite isoformat_compare.
Qed.

(** ** [uuid] *)

Example uuid4_of_bytes :
  UUID.str (UUID.set_version4 0x0123456789abcdef0123456789abcdef)
  = "01234567-89ab-4def-8123-456789abcdef".
Proof. reflexivity. Qed.

Example uuid4_of_ones :
  UUID.str (UUID.set_version4 (2 ^ 128 - 1))
  = "ffffffff-ffff-4fff-bfff-ffffffffffff".
Proof. reflexivity. Qed.

Lemma hex_pieces (h : string) :
  String.length h = 32%nat ->
  substring 0 8 h ++ substring 8 4 h ++ substring 12 4 h ++
  substring 16 4 h ++ substring 20 (String.length h - 20) h = h.
Proof.
  intros L. rewrite L. change (32 - 20)%nat with 12%nat.
  pose proof (substring_app h 16 4 12) as H1.
  pose proof (substring_app h 12 4 16) as H2.
  pose proof (substring_app h 8 4 20) as H3.
  pose proof (substring_app h 0 8 24) as H4.
  cbn [Nat.add] in H1, H2, H3, H4.
  rewrite H1, H2, H3, H4 by lia.
  rewrite <- L. apply substring_all.
Qed.

(** A UUID prints as 36 characters. *)
Lemma uuid_str_length (int : Z) : String.length (UUID.str int) = 36%nat.
Proof.
  unfold UUID.str. cbv zeta.
  pose proof (zfill_length 16 32 int) as L.
  rewrite !string_length_app, !substring_length by lia.
  rewrite L. reflexivity.
Qed.

Lemma dashed_inj (h h' : string) :
  String.length h = 32%nat -> String.length h' = 32%nat ->
  substring 0 8 h ++ "-" ++ substring 8 4 h ++ "-" ++
  substring 12 4 h ++ "-" ++ substring 16 4 h ++ "-" ++
  substring 20 (String.length h - 20) h =
  substring 0 8 h' ++ "-" ++ substring 8 4 h' ++ "-" ++
  substring 12 4 h' ++ "-" ++ substring 16 4 h' ++ "-" ++
  substring 20 (String.length h' - 20) h' ->
  h = h'.
Proof.
  intros L L' E.
  rewrite <- (hex_pieces h L), <- (hex_pieces h' L').
  apply string_app_inj in E; [|rewrite !substring_length by lia; reflexivity].
  destruct E as [-> E]. injection E as E.
  apply string_app_inj in E; [|rewrite !substring_length by lia; reflexivity].
  destruct E as [-> E]. injection E as E.
  apply string_app_inj in E; [|rewrite !substring_length by lia; reflexivity].
  destruct E as [-> E]. injection E as E.
  apply string_app_inj in E; [|rewrite !substring_length by lia; reflexivity].
  destruct E as [-> E]. injection E as E.
  now rewrite E.
Qed.

Lemma uuid_str_inj (a b : Z) :
  0 <= a < 2 ^ 128 -> 0 <= b < 2 ^ 128 -> UUID.str a = UUID.str b -> a = b.
Proof.
  intros Ha Hb E.
  apply (zfill_inj 16 32); [lia | exact Ha | exact Hb |].
  apply dashed_inj; [apply zfill_length | apply zfill_length | exact E].
Qed.

Lemma testbit_above_128 (c n : Z) :
  0 <= c < 2 ^ 128 -> 128 <= n -> Z.testbit c n = false.
Proof.
  intros Hc Hn. rewrite <- (Z.mod_small c (2 ^ 128)) by lia.
  apply Z.mod_pow2_bits_high. lia.
Qed.

(** [set_version4] keeps the bits under the mask and writes the rest. *)
Lemma set_version4_masked (x : Z) :
  0 <= x < 2 ^ 128 ->
  UUID.set_version4 x = Z.lor (Z.land x UUID.random_bits_mask) UUID.version4_bits.
Proof.
  intros Hx.
  unfold UUID.set_version4, UUID.random_bits_mask, UUID.version4_bits.
  cbv zeta.
  rewrite Z.land_lor_distr_l.
  replace (Z.land (Z.shiftl 0x8000 48) (Z.lnot (Z.shiftl 0xf000 64)))
    with (Z.shiftl 0x8000 48) by (vm_compute; reflexivity).
  rewrite <- Z.lor_assoc. f_equal.
  rewrite (Z.land_assoc x (Z.ones 128)), Z.land_ones, Z.mod_small by lia.
  now rewrite Z.land_assoc.
Qed.

Lemma set_version4_range (x : Z) :
  0 <= x < 2 ^ 128 -> 0 <= UUID.set_version4 x < 2 ^ 128.
Proof.
  intros Hx.
  assert (N : 0 <= UUID.set_version4 x).
  { rewrite set_version4_masked by exact Hx.
    apply Z.lor_nonneg. split; [apply Z.land_nonneg; lia | now vm_compute]. }
  split; [exact N|].
  rewrite <- (Z.mod_small x (2 ^ 128)) by lia.
  assert (E : UUID.set_version4 (x mod 2 ^ 128) mod 2 ^ 128
              = UUID.set_version4 (x mod 2 ^ 128)).
  { rewrite set_version4_masked by (apply Z.mod_pos_bound; lia).
    apply Z.bits_inj'. intros n Hn.
    rewrite Z.testbit_mod_pow2 by lia.
    destruct (Z.ltb_spec n 128) as [Lt|Ge]; [reflexivity|].
    assert (M : 0 <= UUID.random_bits_mask < 2 ^ 128)
      by (vm_compute; split; [discriminate | reflexivity]).
    assert (V : 0 <= UUID.version4_bits < 2 ^ 128)
      by (vm_compute; split; [discriminate | reflexivity]).
    rewrite Z.lor_spec, Z.land_spec.
    rewrite (testbit_above_128 _ n M Ge), (testbit_above_128 _ n V Ge).
    now rewrite andb_false_r. }
  rewrite <- E. apply Z.mod_pos_bound. lia.
Qed.

(** Two 16-byte reads give the same UUID exactly when they agree on
    the 122 bits under the mask. *)
Lemma set_version4_eq_iff (x y : Z) :
  0 <= x < 2 ^ 128 -> 0 <= y < 2 ^ 128 ->
  UUID.set_version4 x = UUID.set_version4 y <->
  Z.land x UUID.random_bits_mask = Z.land y UUID.random_bits_mask.
Proof.
  intros Hx Hy. rewrite !set_version4_masked by assumption.
  split; [|now intros ->].
  intros E.
  assert (K : forall z, Z.land (Z.lor (Z.land z UUID.random_bits_mask)
                                      UUID.version4_bits)
                               UUID.random_bits_mask
                        = Z.land z UUID.random_bits_mask).
  { intros z. rewrite Z.land_lor_distr_l.
    replace (Z.land UUID.version4_bits UUID.random_bits_mask) with 0
      by (vm_compute; reflexivity).
    rewrite Z.lor_0_r, <- Z.land_assoc, Z.land_diag. reflexivity. }
  rewrite <- (K x), <- (K y). now rewrite E.
Qed.

Lemma land_mod_random_bits (x : Z) :
  Z.land (x mod 2 ^ 128) UUID.random_bits_mask
  = Z.land x UUID.random_bits_mask.
Proof.
  unfold UUID.random_bits_mask.
  rewrite !(Z.land_assoc _ (Z.ones 128)), !Z.land_ones by lia.
  now rewrite Z.mod_mod by lia.
Qed.


Lemma some_pstr_inj (s t : string) : Some (PStr s) = Some (PStr t) -> s = t.
Proof. now intros [= ->]. Qed.

(** ** Printing an int *)

Lemma str_of_int_fits (z : Z) :
  fits_str_digits z = true -> str_of_int z = inl (decimal z).
Proof. intros H. unfold str_of_int. now rewrite H. Qed.

Lemma str_of_int_raises (z : Z) :
  fits_str_digits z = false -> str_of_int z = inr ValueError.
Proof. intros H. unfold str_of_int. now rewrite H. Qed.

Lemma huge_int_does_not_fit : fits_str_digits huge_int = false.
Proof. vm_compute. reflexivity. Qed.

Lemma ten_fits : fits_str_digits MockAmpClient.default_limit = true.
Proof. vm_compute. reflexivity. Qed.

(** ** Printing *)

Lemma with_stdout_nil (w : World) : with_stdout w [] = w.
Proof. destruct w. unfold with_stdout. cbn. now rewrite app_nil_r. Qed.

Lemma with_stdout_app (w : World) (a b : list string) :
  with_stdout (with_stdout w a) b = with_stdout w (a ++ b).
Proof. unfold with_stdout. cbn. now rewrite app_assoc. Qed.

Lemma print_run (l : string) (w : World) : print l w = (tt, with_stdout w [l]).
Proof. reflexivity. Qed.

(* ================================================================== *)
(** * Properties of [MockAmpClient] *)

(** ** What each coroutine returns and leaves behind *)

Lemma create_symbol_run (name kind path language : string) (w : World) :
  MockAmpClient.create_symbol name kind path language w =
  let id := UUID.str (UUID.set_version4 (next_urandom w mod 2 ^ 128)) in
  (PDict
     [ ("id", PStr id);
       ("type", PStr "symbol");
       ("tenant_id", PStr "default");
       ("project_id", PStr "example_project");
       ("created_at", PStr (isoformat (system_clock w (clock_reads w))));
       ("updated_at", PStr (isoformat (system_clock w (S (clock_reads w)))));
       ("provenance", PDict
          [ ("agent", PStr "python_example");
            ("summary", PStr ("Created symbol " ++ name)) ]);
       ("name", PStr name);
       ("kind", PStr kind);
       ("path", PStr path);
       ("language", PStr language) ],
   mkWorld (os_urandom w) (S (urandom_reads w))
           (system_clock w) (S (S (clock_reads w)))
           (stdout w ++ ["Created symbol: " ++ name ++ " (" ++ id ++ ")"])).
Proof. reflexivity. Qed.

Lemma create_decision_run (title problem rationale outcome : string)
    (w : World) :
  MockAmpClient.create_decision title problem rationale outcome w =
  let id := UUID.str (UUID.set_version4 (next_urandom w mod 2 ^ 128)) in
  (PDict
     [ ("id", PStr id);
       ("type", PStr "decision");
       ("tenant_id", PStr "default");
       ("project_id", PStr "example_project");
       ("created_at", PStr (isoformat (system_clock w (clock_reads w))));
       ("updated_at", PStr (isoformat (system_clock w (S (clock_reads w)))));
       ("provenance", PDict
          [ ("agent", PStr "python_example");
            ("summary", PStr ("Made decision: " ++ title)) ]);
       ("title", PStr title);
       ("problem", PStr problem);
       ("rationale", PStr rationale);
       ("outcome", PStr outcome);
       ("status", PStr "accepted") ],
   mkWorld (os_urandom w) (S (urandom_reads w))
           (system_clock w) (S (S (clock_reads w)))
           (stdout w ++ ["Created decision: " ++ title ++ " (" ++ id ++ ")"])).
Proof. reflexivity. Qed.

(** A query whose limit can be printed returns. *)
Lemma query_objects_run (text : string) (limit : Z) (w : World) :
  fits_str_digits limit = true ->
  MockAmpClient.query_objects text limit w =
  (inl (PDict
     [ ("results", PList []);
       ("trace_id",
        PStr (UUID.str (UUID.set_version4 (next_urandom w mod 2 ^ 128))));
       ("total_count", PInt 0);
       ("execution_time_ms", PInt 42) ]),
   mkWorld (os_urandom w) (S (urandom_reads w))
           (system_clock w) (clock_reads w)
           (stdout w ++ ["Querying for: '" ++ text ++ "' (limit: "
                         ++ decimal limit ++ ")"])).
Proof.
  intros H. unfold MockAmpClient.query_objects, bind_try, ret.
  rewrite (str_of_int_fits limit H). reflexivity.
Qed.

(** A query whose limit cannot be printed raises, and leaves the
    process as it was. *)
Lemma query_objects_raises (text : string) (limit : Z) (w : World) :
  fits_str_digits limit = false ->
  MockAmpClient.query_objects text limit w = (inr ValueError, w).
Proof.
  intros H. unfold MockAmpClient.query_objects, bind_try, ret.
  rewrite (str_of_int_raises limit H). reflexivity.
Qed.

(** A query returns only when its limit can be printed. *)
Lemma query_objects_returned (text : string) (limit : Z) (w : World)
    (r : pyval) :
  fst (MockAmpClient.query_objects text limit w) = inl r ->
  fits_str_digits limit = true.
Proof.
  destruct (fits_str_digits limit) eqn:F; [reflexivity|].
  rewrite (query_objects_raises text limit w F). discriminate.
Qed.

(** The query never reads the clock, whether it returns or raises. *)
Lemma query_objects_clock (text : string) (limit : Z) (w : World) :
  clock_reads (snd (MockAmpClient.query_objects text limit w))
  = clock_reads w /\
  system_clock (snd (MockAmpClient.query_objects text limit w))
  = system_clock w.
Proof.
  destruct (fits_str_digits limit) eqn:F.
  - rewrite (query_objects_run text limit w F). split; reflexivity.
  - rewrite (query_objects_raises text limit w F). split; reflexivity.
Qed.

(** The calls of [main], one by one. *)
Example main_creates_symbol :
  MockAmpClient.create_symbol "main" "function" "src/main.rs" "rust"
    ticking_world =
  (PDict
     [ ("id", PStr "00000000-0000-4000-8000-000000000000");
       ("type", PStr "symbol");
       ("tenant_id", PStr "default");
       ("project_id", PStr "example_project");
       ("created_at", PStr "2024-01-01T00:00:00");
       ("updated_at", PStr "2024-01-01T00:00:00.000001");
       ("provenance", PDict
          [ ("agent", PStr "python_example");
            ("summary", PStr "Created symbol main") ]);
       ("name", PStr "main");
       ("kind", PStr "function");
       ("path", PStr "src/main.rs");
       ("language", PStr "rust") ],
   mkWorld (os_urandom ticking_world) 1 (system_clock ticking_world) 2
     ["Created symbol: main (00000000-0000-4000-8000-000000000000)"]).
Proof. reflexivity. Qed.

Example main_queries :
  MockAmpClient.query_objects "rust functions" MockAmpClient.default_limit
    ticking_world =
  (inl (PDict
     [ ("results", PList []);
       ("trace_id", PStr "00000000-0000-4000-8000-000000000000");
       ("total_count", PInt 0);
       ("execution_time_ms", PInt 42) ]),
   mkWorld (os_urandom ticking_world) 1 (system_clock ticking_world) 0
     ["Querying for: 'rust functions' (limit: 10)"]).
Proof. rewrite (query_objects_run _ _ _ ten_fits). reflexivity. Qed.

(** The trace id of a returned result is the UUID made of the 16 bytes
    the query reads. *)
Lemma query_trace_id (text : string) (limit : Z) (w : World) (r : pyval) :
  fst (MockAmpClient.query_objects text limit w) = inl r ->
  field "trace_id" r =
  Some (PStr (UUID.str (UUID.set_version4 (next_urandom w mod 2 ^ 128)))).
Proof.
  intros E. pose proof (query_objects_returned _ _ _ _ E) as F.
  rewrite (query_objects_run text limit w F) in E.
  injection E as <-. reflexivity.
Qed.

(** Two trace ids are equal exactly when the reads they are made of
    agree on the bits [uuid4] keeps. *)
Lemma uuid4_strings_equal_iff (x y : Z) :
  Some (PStr (UUID.str (UUID.set_version4 (x mod 2 ^ 128)))) =
  Some (PStr (UUID.str (UUID.set_version4 (y mod 2 ^ 128))))
  <->
  Z.land x UUID.random_bits_mask = Z.land y UUID.random_bits_mask.
Proof.
  rewrite <- (land_mod_random_bits x), <- (land_mod_random_bits y).
  assert (Rx : 0 <= x mod 2 ^ 128 < 2 ^ 128) by (apply Z.mod_pos_bound; lia).
  assert (Ry : 0 <= y mod 2 ^ 128 < 2 ^ 128) by (apply Z.mod_pos_bound; lia).
  rewrite <- (set_version4_eq_iff _ _ Rx Ry).
  split; intros E.
  - apply some_pstr_inj, uuid_str_inj in E;
      [exact E | | ]; now apply set_version4_range.
  - now rewrite E.
Qed.

(** ** Queries *)

(** C2 as stated fails: a query whose limit has more than 4300 digits
    raises [ValueError] instead of returning a result, and leaves the
    process as it was. *)
Lemma query_raises_on_huge_limit :
  MockAmpClient.query_objects "rust functions" huge_int ticking_world
  = (inr ValueError, ticking_world).
Proof.
  exact (query_objects_raises "rust functions" huge_int ticking_world
           huge_int_does_not_fit).
Qed.

(** C2, amended: a query whose limit has at most 4300 decimal digits
    never fails, whatever the text and the state of the process: it
    returns an object with [results] the empty list, [total_count] 0, a
    [trace_id] that is not empty and an [execution_time_ms] entry.  The
    [trace_id] is generated during the call: it is the 36 characters of
    the UUID made of the 16 bytes the call reads from the entropy pool,
    one read being consumed, and it tells those bytes: any other
    returned query result with the same [trace_id] was made of a read
    that agrees with this one on the 122 bits [uuid4] keeps. *)
Theorem query_zero_results_is_success (text : string) (limit : Z) (w : World) :
  fits_str_digits limit = true ->
  exists (r : pyval) (w' : World) (trace_id : string),
    MockAmpClient.query_objects text limit w = (inl r, w') /\
    field "results" r = Some (PList []) /\
    field "total_count" r = Some (PInt 0) /\
    field "trace_id" r = Some (PStr trace_id) /\
    trace_id <> EmptyString /\
    String.length trace_id = 36%nat /\
    trace_id = UUID.str (UUID.set_version4 (next_urandom w mod 2 ^ 128)) /\
    urandom_reads w' = S (urandom_reads w) /\
    (exists ms, field "execution_time_ms" r = Some (PInt ms)) /\
    (forall (text2 : string) (limit2 : Z) (w2 : World) (r2 : pyval),
       fst (MockAmpClient.query_objects text2 limit2 w2) = inl r2 ->
       field "trace_id" r2 = field "trace_id" r ->
       Z.land (next_urandom w2) UUID.random_bits_mask =
       Z.land (next_urandom w) UUID.random_bits_mask).
Proof.
  intros F. rewrite (query_objects_run text limit w F).
  eexists _, _, _. split; [reflexivity|].
  do 3 (split; [reflexivity|]).
  split.
  { intros E. apply (f_equal String.length) in E.
    rewrite uuid_str_length in E. discriminate. }
  split; [apply uuid_str_length|].
  do 2 (split; [reflexivity|]).
  split; [now exists 42|].
  intros text2 limit2 w2 r2 E2 T.
  rewrite (query_trace_id _ _ _ _ E2) in T. cbn [field dict_get String.eqb Ascii.eqb Bool.eqb] in T.
  now apply uuid4_strings_equal_iff.
Qed.

(** The query of [main], in a process whose entropy pool counts. *)
Lemma query_zero_results_is_success_witness :
  exists (r : pyval) (w' : World),
    MockAmpClient.query_objects "rust functions" 10 ticking_world
      = (inl r, w') /\
    field "results" r = Some (PList []) /\
    field "total_count" r = Some (PInt 0) /\
    field "trace_id" r = Some (PStr "00000000-0000-4000-8000-000000000000").
Proof.
  destruct (query_zero_results_is_success "rust functions" 10 ticking_world
              ten_fits)
    as (r & w' & t & E & R & C & T & _ & _ & Et & _).
  exists r, w'. split; [exact E|]. split; [exact R|]. split; [exact C|].
  rewrite T, Et. reflexivity.
Defined.

(** C3 as stated fails: two successive queries of one process, whose
    16-byte reads from the entropy pool differ, return the same
    [trace_id]. *)
Lemma trace_id_can_repeat :
  exists (r1 r2 : pyval) (w1 w2 : World),
    MockAmpClient.query_objects "rust functions" 10 colliding_world
      = (inl r1, w1) /\
    MockAmpClient.query_objects "rust functions" 10 w1 = (inl r2, w2) /\
    next_urandom colliding_world <> next_urandom w1 /\
    field "trace_id" r1
      = Some (PStr "00000000-0000-4000-8000-000000000000") /\
    field "trace_id" r2 = field "trace_id" r1.
Proof.
  eexists _, _, _, _.
  rewrite (query_objects_run _ _ colliding_world ten_fits).
  split; [reflexivity|].
  rewrite (query_objects_run _ _ _ ten_fits).
  split; [reflexivity|].
  split; [vm_compute; discriminate|].
  split; reflexivity.
Qed.

(** C3, amended: the [trace_id] of a query is made of the 16 bytes the
    call reads from the entropy pool, and the results two invocations
    return carry the same [trace_id] exactly when their reads agree on
    the 122 bits that [uuid4] keeps; so the trace ids of two
    invocations are distinct whenever those bits differ. *)
Theorem trace_ids_distinct_iff_entropy_differs
    (text1 text2 : string) (limit1 limit2 : Z) (w1 w2 : World)
    (r1 r2 : pyval) :
  fst (MockAmpClient.query_objects text1 limit1 w1) = inl r1 ->
  fst (MockAmpClient.query_objects text2 limit2 w2) = inl r2 ->
  (field "trace_id" r1 <> field "trace_id" r2
   <->
   Z.land (next_urandom w1) UUID.random_bits_mask <>
   Z.land (next_urandom w2) UUID.random_bits_mask).
Proof.
  intros E1 E2.
  rewrite (query_trace_id _ _ _ _ E1), (query_trace_id _ _ _ _ E2).
  now rewrite uuid4_strings_equal_iff.
Qed.

(** Two successive queries in a process whose entropy pool counts. *)
Lemma trace_ids_distinct_witness :
  exists (r1 r2 : pyval) (w1 w2 : World),
    MockAmpClient.query_objects "rust functions" 10 ticking_world
      = (inl r1, w1) /\
    MockAmpClient.query_objects "rust functions" 10 w1 = (inl r2, w2) /\
    field "trace_id" r1 <> field "trace_id" r2.
Proof.
  eexists _, _, _, _.
  split; [apply (query_objects_run _ _ ticking_world ten_fits)|].
  split; [apply (query_objects_run _ _ _ ten_fits)|].
  apply (proj2 (trace_ids_distinct_iff_entropy_differs
                  "rust functions" "rust functions" 10 10 ticking_world _
                  _ _
                  (f_equal fst (query_objects_run _ _ ticking_world ten_fits))
                  (f_equal fst (query_objects_run _ _ _ ten_fits)))).
  vm_compute. discriminate.
Defined.

(** C8 as stated fails: no two invocations that return, whatever their
    texts, limits and clocks, report different execution times. *)
Lemma execution_time_is_not_measured :
  ~ exists (text1 text2 : string) (limit1 limit2 : Z) (w1 w2 : World)
           (r1 r2 : pyval),
      fst (MockAmpClient.query_objects text1 limit1 w1) = inl r1 /\
      fst (MockAmpClient.query_objects text2 limit2 w2) = inl r2 /\
      field "execution_time_ms" r1 <> field "execution_time_ms" r2.
Proof.
  intros (text1 & text2 & limit1 & limit2 & w1 & w2 & r1 & r2 & E1 & E2 & H).
  apply H.
  rewrite (query_objects_run _ _ _ (query_objects_returned _ _ _ _ E1)) in E1.
  rewrite (query_objects_run _ _ _ (query_objects_returned _ _ _ _ E2)) in E2.
  injection E1 as <-. injection E2 as <-. reflexivity.
Qed.

(** C8, amended: the [execution_time_ms] of every result the mock
    client returns is the constant 42, and the query does not read the
    clock at all. *)
Theorem execution_time_ms_is_mocked (text : string) (limit : Z) (w : World)
    (r : pyval) :
  fst (MockAmpClient.query_objects text limit w) = inl r ->
  field "execution_time_ms" r = Some (PInt 42) /\
  clock_reads (snd (MockAmpClient.query_objects text limit w))
  = clock_reads w /\
  system_clock (snd (MockAmpClient.query_objects text limit w))
  = system_clock w.
Proof.
  intros E. split; [|apply query_objects_clock].
  rewrite (query_objects_run _ _ _ (query_objects_returned _ _ _ _ E)) in E.
  injection E as <-. reflexivity.
Qed.

(** The query of [main]. *)
Lemma execution_time_ms_is_mocked_witness :
  exists r : pyval,
    fst (MockAmpClient.query_objects "rust functions" 10 ticking_world)
      = inl r /\
    field "execution_time_ms" r = Some (PInt 42).
Proof.
  eexists. split;
    [exact (f_equal fst (query_objects_run _ _ ticking_world ten_fits))|].
  exact (proj1 (execution_time_ms_is_mocked "rust functions" 10 ticking_world
                  _ (f_equal fst (query_objects_run _ _ ticking_world
                                    ten_fits)))).
Defined.

(** C10 as stated fails: the outcome of a query depends on its limit;
    in one and the same process, a limit of 10 returns a result and a
    limit of more than 4300 digits raises [ValueError]. *)
Lemma query_outcome_depends_on_limit :
  (exists r : pyval,
     fst (MockAmpClient.query_objects "rust functions" 10 ticking_world)
       = inl r) /\
  fst (MockAmpClient.query_objects "rust functions" huge_int ticking_world)
    = inr ValueError.
Proof.
  split.
  - eexists.
    exact (f_equal fst (query_objects_run _ _ ticking_world ten_fits)).
  - exact (f_equal fst (query_objects_raises "rust functions" huge_int
                        ticking_world huge_int_does_not_fit)).
Qed.

(** C10, amended: for every pair of inputs whose limits have at most
    4300 decimal digits, the results the query returns are identical
    apart from [trace_id], in every state of the process, in particular
    after any session of earlier calls: [results] is the empty list,
    [total_count] is 0 and [execution_time_ms] is 42. *)
Theorem query_result_is_constant
    (text1 text2 : string) (limit1 limit2 : Z) (w : World)
    (earlier : list call) :
  fits_str_digits limit1 = true ->
  fits_str_digits limit2 = true ->
  exists r1 r2 : pyval,
    fst (MockAmpClient.query_objects text1 limit1 w) = inl r1 /\
    fst (MockAmpClient.query_objects text2 limit2 (snd (session earlier w)))
      = inl r2 /\
    without "trace_id" r1 = without "trace_id" r2 /\
    without "trace_id" r1 =
      PDict [ ("results", PList []);
              ("total_count", PInt 0);
              ("execution_time_ms", PInt 42) ] /\
    field "results" r1 = Some (PList []) /\
    field "total_count" r1 = Some (PInt 0) /\
    field "execution_time_ms" r1 = Some (PInt 42).
Proof.
  intros F1 F2.
  rewrite (query_objects_run text1 limit1 w F1).
  rewrite (query_objects_run text2 limit2 _ F2).
  eexists _, _. repeat split.
Qed.

(** Two queries of different texts and limits, the second after a
    Symbol was created. *)
Lemma query_result_is_constant_witness :
  exists r1 r2 : pyval,
    fst (MockAmpClient.query_objects "rust functions" 10 ticking_world)
      = inl r1 /\
    fst (MockAmpClient.query_objects "Config" 0
           (snd (session [CreateSymbol "main" "function" "src/main.rs" "rust"]
                   ticking_world))) = inl r2 /\
    without "trace_id" r1 = without "trace_id" r2.
Proof.
  assert (F0 : fits_str_digits 0 = true) by (vm_compute; reflexivity).
  destruct (query_result_is_constant "rust functions" "Config" 10 0
              ticking_world
              [CreateSymbol "main" "function" "src/main.rs" "rust"]
              ten_fits F0)
    as (r1 & r2 & E1 & E2 & W & _).
  exists r1, r2. split; [exact E1|]. split; [exact E2 | exact W].
Defined.
(** ** Created objects *)

(** C4: [create_decision] takes no status, and the Decision it returns
    has [status] equal to [accepted]. *)
Theorem decision_status_defaults_to_accepted
    (title problem rationale outcome : string) (w : World) :
  field "status"
    (fst (MockAmpClient.create_decision title problem rationale outcome w))
  = Some (PStr "accepted").
Proof. rewrite create_decision_run. reflexivity. Qed.

(** C6: every object made by [create_symbol] or [create_decision]
    carries a provenance whose [agent] and [summary] are both strings
    that are not empty, whatever the arguments (an empty name or title
    included). *)
Theorem provenance_is_never_empty :
  (forall (name kind path language : string) (w : World),
     let obj := fst (MockAmpClient.create_symbol name kind path language w) in
     exists agent summary : string,
       field2 "provenance" "agent" obj = Some (PStr agent) /\
       field2 "provenance" "summary" obj = Some (PStr summary) /\
       agent <> EmptyString /\ summary <> EmptyString) /\
  (forall (title problem rationale outcome : string) (w : World),
     let obj := fst (MockAmpClient.create_decision title problem rationale
                       outcome w) in
     exists agent summary : string,
       field2 "provenance" "agent" obj = Some (PStr agent) /\
       field2 "provenance" "summary" obj = Some (PStr summary) /\
       agent <> EmptyString /\ summary <> EmptyString).
Proof.
  split; cbv zeta; intros.
  - rewrite create_symbol_run.
    exists "python_example", ("Created symbol " ++ name).
    repeat split; discriminate.
  - rewrite create_decision_run.
    exists "python_example", ("Made decision: " ++ title).
    repeat split; discriminate.
Qed.

(** C9: every object made by [create_symbol] or [create_decision] has
    [tenant_id] equal to [default] and [project_id] equal to
    [example_project]; neither coroutine has a parameter for them. *)
Theorem created_objects_have_fixed_scope :
  (forall (name kind path language : string) (w : World),
     let obj := fst (MockAmpClient.create_symbol name kind path language w) in
     field "tenant_id" obj = Some (PStr "default") /\
     field "project_id" obj = Some (PStr "example_project")) /\
  (forall (title problem rationale outcome : string) (w : World),
     let obj := fst (MockAmpClient.create_decision title problem rationale
                       outcome w) in
     field "tenant_id" obj = Some (PStr "default") /\
     field "project_id" obj = Some (PStr "example_project")).
Proof.
  split; cbv zeta; intros.
  - rewrite create_symbol_run. split; reflexivity.
  - rewrite create_decision_run. split; reflexivity.
Qed.

(** C5 as stated fails: when the system clock is set back between the
    two readings that [create_symbol] takes, the Symbol is created with
    [created_at] after [updated_at]. *)
Lemma updated_at_can_precede_created_at :
  let obj := fst (MockAmpClient.create_symbol "main" "function" "src/main.rs"
                    "rust" stepped_back_world) in
  valid_datetime (system_clock stepped_back_world 0) /\
  valid_datetime (system_clock stepped_back_world 1) /\
  field "created_at" obj = Some (PStr "2024-01-01T00:00:01") /\
  field "updated_at" obj = Some (PStr "2024-01-01T00:00:00") /\
  ~ str_le "2024-01-01T00:00:01" "2024-01-01T00:00:00".
Proof.
  cbv zeta. rewrite create_symbol_run.
  split; [unfold valid_datetime; simpl; lia|].
  split; [unfold valid_datetime; simpl; lia|].
  split; [reflexivity|]. split; [reflexivity|].
  intros H. apply H. reflexivity.
Qed.

(** C5, amended: [created_at] and [updated_at] of a created object are
    the ISO strings of two successive readings of the system clock,
    taken in this order; so [updated_at >= created_at] holds at creation
    whenever the clock did not go backwards between the two readings.
    (The client has no operation that changes an object afterwards.) *)
Theorem updated_at_not_before_created_at (w : World) :
  let t1 := system_clock w (clock_reads w) in
  let t2 := system_clock w (S (clock_reads w)) in
  valid_datetime t1 -> valid_datetime t2 -> datetime_le t1 t2 ->
  (forall name kind path language : string,
     let obj := fst (MockAmpClient.create_symbol name kind path language w) in
     field "created_at" obj = Some (PStr (isoformat t1)) /\
     field "updated_at" obj = Some (PStr (isoformat t2)) /\
     str_le (isoformat t1) (isoformat t2)) /\
  (forall title problem rationale outcome : string,
     let obj := fst (MockAmpClient.create_decision title problem rationale
                       outcome w) in
     field "created_at" obj = Some (PStr (isoformat t1)) /\
     field "updated_at" obj = Some (PStr (isoformat t2)) /\
     str_le (isoformat t1) (isoformat t2)).
Proof.
  intros t1 t2 V1 V2 Hle.
  split; cbv zeta; intros.
  - rewrite create_symbol_run.
    do 2 (split; [reflexivity|]). now apply isoformat_le.
  - rewrite create_decision_run.
    do 2 (split; [reflexivity|]). now apply isoformat_le.
Qed.

(** A Symbol and a Decision created while the clock ticks forward. *)
Lemma updated_at_not_before_created_at_witness :
  let obj := fst (MockAmpClient.create_symbol "main" "function" "src/main.rs"
                    "rust" ticking_world) in
  datetime_le (system_clock ticking_world 0) (system_clock ticking_world 1) /\
  field "created_at" obj = Some (PStr "2024-01-01T00:00:00") /\
  field "updated_at" obj = Some (PStr "2024-01-01T00:00:00.000001") /\
  str_le "2024-01-01T00:00:00" "2024-01-01T00:00:00.000001".
Proof.
  assert (V1 : valid_datetime (system_clock ticking_world 0))
    by (unfold valid_datetime; simpl; lia).
  assert (V2 : valid_datetime (system_clock ticking_world 1))
    by (unfold valid_datetime; simpl; lia).
  assert (L : datetime_le (system_clock ticking_world 0)
                          (system_clock ticking_world 1))
    by (vm_compute; discriminate).
  split; [exact L|].
  exact (proj1 (updated_at_not_before_created_at ticking_world V1 V2 L)
           "main" "function" "src/main.rs" "rust").
Defined.



(* ================================================================== *)
(** * Further properties of [python_basic.py] *)

(** ** Identifiers *)

(** A creation always returns; a query returns when its limit can be
    printed. *)
Lemma perform_run (c : call) (w : World) :
  call_fits c = true ->
  exists (r : pyval) (l : string),
    perform c w =
    (inl r,
     mkWorld (os_urandom w) (S (urandom_reads w)) (system_clock w)
             (if is_creation c then S (S (clock_reads w)) else clock_reads w)
             (stdout w ++ [l])) /\
    identifier c r =
    Some (PStr (UUID.str (UUID.set_version4 (next_urandom w mod 2 ^ 128)))) /\
    (is_creation c = true ->
     field "created_at" r =
       Some (PStr (isoformat (system_clock w (clock_reads w)))) /\
     field "updated_at" r =
       Some (PStr (isoformat (system_clock w (S (clock_reads w)))))).
Proof.
  destruct c as [name kind path language
                | title problem rationale outcome | text limit];
    cbn [call_fits perform is_creation identifier]; intros F.
  - unfold bind, ret. rewrite create_symbol_run. cbv zeta.
    eexists _, _. split; [reflexivity|]. split; [reflexivity|].
    intros _. split; reflexivity.
  - unfold bind, ret. rewrite create_decision_run. cbv zeta.
    eexists _, _. split; [reflexivity|]. split; [reflexivity|].
    intros _. split; reflexivity.
  - rewrite (query_objects_run text limit w F).
    eexists _, _. split; [reflexivity|]. split; [reflexivity|].
    discriminate.
Qed.

(** A call that cannot print raises and leaves the process as it
    was. *)
Lemma perform_raises (c : call) (w : World) :
  call_fits c = false -> perform c w = (inr ValueError, w).
Proof.
  destruct c; cbn [call_fits perform]; intros F; try discriminate F.
  now apply query_objects_raises.
Qed.

Lemma perform_returned (c : call) (w : World) (r : pyval) :
  fst (perform c w) = inl r -> call_fits c = true.
Proof.
  destruct (call_fits c) eqn:F; [reflexivity|].
  rewrite (perform_raises c w F). discriminate.
Qed.

Lemma identifier_of_call (c : call) (w : World) (r : pyval) :
  fst (perform c w) = inl r ->
  identifier c r =
  Some (PStr (UUID.str (UUID.set_version4 (next_urandom w mod 2 ^ 128)))).
Proof.
  intros E.
  destruct (perform_run c w (perform_returned c w r E)) as (r' & l & R & I & _).
  rewrite R in E. injection E as <-. exact I.
Qed.
Lemma is_hex_digit_char (d : Z) :
  0 <= d < 16 -> is_hex_digit (digit_char d) = true.
Proof.
  intros H.
  assert (A : forallb (fun x => is_hex_digit (digit_char x)) digits16 = true)
    by (vm_compute; reflexivity).
  rewrite forallb_forall in A. apply A, in_digits16, H.
Qed.

(** Every character of a hexadecimal numeral is a hex digit. *)
Lemma zfill_hex_digits (w : nat) : forall (n : Z) (k : nat) (ch : ascii),
  String.get k (zfill 16 w n) = Some ch -> is_hex_digit ch = true.
Proof.
  induction w as [|w IH]; intros n k ch H; simpl in H.
  - discriminate.
  - destruct k as [|k].
    + injection H as <-. apply is_hex_digit_char, Z.mod_pos_bound. lia.
    + exact (IH _ _ _ H).
Qed.

(** The digit of weight [base ^ (w - 1 - k)] is at index [k]. *)
Lemma zfill_get (base : Z) (w : nat) : 2 <= base ->
  forall (n : Z) (k : nat), (k < w)%nat ->
    String.get k (zfill base w n) =
    Some (digit_char ((n / base ^ Z.of_nat (w - 1 - k)) mod base)).
Proof.
  intros Hb. induction w as [|w IH]; intros n k Hk; [lia|].
  cbn [zfill String.get]. destruct k as [|k].
  - replace (S w - 1 - 0)%nat with w by lia. reflexivity.
  - rewrite IH by lia.
    replace (S w - 1 - S k)%nat with (w - 1 - k)%nat by lia.
    set (j := (w - 1 - k)%nat).
    assert (Hw : Z.of_nat w = Z.of_nat j + (Z.of_nat (w - j - 1) + 1))
      by (unfold j; lia).
    rewrite Hw, Z.pow_add_r, Z.pow_add_r, Z.pow_1_r by lia.
    set (p := base ^ Z.of_nat j).
    set (q := base ^ Z.of_nat (w - j - 1)).
    assert (Hp : 0 < p) by (apply Z.pow_pos_nonneg; lia).
    assert (Hq : 0 < q) by (apply Z.pow_pos_nonneg; lia).
    rewrite Z.rem_mul_r by lia.
    rewrite (Z.mul_comm p), Z.div_add by lia.
    rewrite (Z.div_small (n mod p) p) by (apply Z.mod_pos_bound; lia).
    rewrite Z.add_0_l. do 2 f_equal.
    rewrite (Z.mul_comm q base), Z.rem_mul_r by lia.
    rewrite Z.mul_comm, Z.mod_add by lia.
    apply Z.mod_mod. lia.
Qed.

(** The version nibble and the variant nibble of a version-4 UUID. *)
Lemma set_version4_nibbles (x : Z) :
  0 <= x < 2 ^ 128 ->
  (UUID.set_version4 x / 16 ^ 19) mod 16 = 4 /\
  8 <= (UUID.set_version4 x / 16 ^ 15) mod 16 <= 11.
Proof.
  intros Hx. rewrite set_version4_masked by exact Hx.
  change (16 ^ 19) with (2 ^ 76). change (16 ^ 15) with (2 ^ 60).
  change 16 with (2 ^ 4).
  rewrite <- !Z.shiftr_div_pow2, <- !Z.land_ones by lia.
  rewrite !Z.shiftr_lor, !Z.shiftr_land, !Z.land_lor_distr_l.
  rewrite <- !Z.land_assoc.
  replace (Z.land (Z.shiftr UUID.random_bits_mask 76) (Z.ones 4)) with 0
    by (vm_compute; reflexivity).
  replace (Z.land (Z.shiftr UUID.version4_bits 76) (Z.ones 4)) with 4
    by (vm_compute; reflexivity).
  replace (Z.land (Z.shiftr UUID.random_bits_mask 60) (Z.ones 4))
    with (Z.ones 2) by (vm_compute; reflexivity).
  replace (Z.land (Z.shiftr UUID.version4_bits 60) (Z.ones 4)) with 8
    by (vm_compute; reflexivity).
  rewrite Z.land_0_r. split; [reflexivity|].
  rewrite Z.land_ones by lia.
  pose proof (Z.mod_pos_bound (Z.shiftr x 60) (2 ^ 2) ltac:(lia)) as B.
  change (2 ^ 2) with 4 in *.
  assert (C : Z.shiftr x 60 mod 4 = 0 \/ Z.shiftr x 60 mod 4 = 1 \/
              Z.shiftr x 60 mod 4 = 2 \/ Z.shiftr x 60 mod 4 = 3) by lia.
  destruct C as [-> | [-> | [-> | ->]]]; vm_compute; split; discriminate.
Qed.

Ltac pose_chars P n :=
  lazymatch n with
  | O => pose proof (P O _ eq_refl)
  | S ?m => pose proof (P n _ eq_refl); pose_chars P m
  end.

(** The 8-4-4-4-12 layout, for any 32 characters. *)
Lemma dashed_layout (h : string) :
  String.length h = 32%nat ->
  (forall k ch, String.get k h = Some ch -> is_hex_digit ch = true) ->
  let s := substring 0 8 h ++ "-" ++ substring 8 4 h ++ "-" ++
           substring 12 4 h ++ "-" ++ substring 16 4 h ++ "-" ++
           substring 20 (String.length h - 20) h in
  String.get 14 s = String.get 12 h /\
  String.get 19 s = String.get 16 h /\
  forall k ch, String.get k s = Some ch ->
    if existsb (Nat.eqb k) [8; 13; 18; 23]%nat then ch = "-"%char
    else is_hex_digit ch = true.
Proof.
  intros L P.
  do 32 (destruct h as [|? h]; [discriminate L|]).
  destruct h; [|discriminate L]. clear L.
  pose_chars P 31%nat. clear P.
  cbv zeta. cbn [String.length Nat.sub substring append String.get].
  split; [reflexivity|]. split; [reflexivity|].
  intros k ch E.
  do 36 (destruct k as [|k];
         [cbn [String.get] in E; injection E as <-;
          cbn [existsb Nat.eqb orb]; first [reflexivity | assumption]|]).
  discriminate E.
Qed.


(** X1: the identifier every call returns (the [id] of a created
    Symbol or Decision, the [trace_id] of a query result) is a
    version-4 UUID in its canonical form: 36 characters, dashes at
    positions 8, 13, 18 and 23, lower-case hexadecimal digits
    elsewhere, the version digit 4 at position 14 and a variant digit
    8, 9, a or b at position 19. *)
Theorem identifiers_are_canonical_uuid4 (c : call) (w : World) (r : pyval) :
  fst (perform c w) = inl r ->
  exists s : string,
    identifier c r = Some (PStr s) /\
    String.length s = 36%nat /\
    String.get 14 s = Some "4"%char /\
    (exists v, String.get 19 s = Some v /\
               In v ["8"; "9"; "a"; "b"]%char) /\
    forall k ch, String.get k s = Some ch ->
      if existsb (Nat.eqb k) [8; 13; 18; 23]%nat then ch = "-"%char
      else is_hex_digit ch = true.
Proof.
  intros E. rewrite (identifier_of_call c w r E).
  set (x := next_urandom w mod 2 ^ 128).
  assert (Hx : 0 <= x < 2 ^ 128) by (apply Z.mod_pos_bound; lia).
  pose proof (set_version4_range x Hx) as Hv.
  destruct (set_version4_nibbles x Hx) as [N4 NV].
  set (v := UUID.set_version4 x) in *.
  eexists. split; [reflexivity|].
  split; [apply uuid_str_length|].
  destruct (dashed_layout (zfill 16 32 v) (zfill_length 16 32 v)
              (zfill_hex_digits 32 v)) as (G14 & G19 & Gall).
  fold (UUID.str v) in G14, G19, Gall.
  rewrite G14, G19, !zfill_get by lia.
  change (Z.of_nat (32 - 1 - 12)) with 19.
  change (Z.of_nat (32 - 1 - 16)) with 15.
  rewrite N4. split; [reflexivity|]. split; [|exact Gall].
  eexists. split; [reflexivity|].
  assert (C : (v / 16 ^ 15) mod 16 = 8 \/ (v / 16 ^ 15) mod 16 = 9 \/
              (v / 16 ^ 15) mod 16 = 10 \/ (v / 16 ^ 15) mod 16 = 11) by lia.
  destruct C as [-> | [-> | [-> | ->]]]; simpl; auto.
Qed.

(** The first Symbol made in a process whose entropy pool counts. *)
Lemma identifiers_are_canonical_uuid4_witness :
  exists (r : pyval) (s : string),
    fst (perform (CreateSymbol "main" "function" "src/main.rs" "rust")
           ticking_world) = inl r /\
    identifier (CreateSymbol "main" "function" "src/main.rs" "rust") r
      = Some (PStr s) /\
    String.length s = 36%nat /\
    String.get 14 s = Some "4"%char.
Proof.
  destruct (identifiers_are_canonical_uuid4
              (CreateSymbol "main" "function" "src/main.rs" "rust")
              ticking_world _ eq_refl)
    as (s & I & L & G & _).
  eexists _, s. split; [reflexivity|]. split; [exact I|].
  split; [exact L | exact G].
Defined.

(** X2: two calls of any kind that return, return the same identifier
    exactly when the 16-byte reads they make agree on the 122 bits
    [uuid4] keeps; an object [id] can thus coincide with a query's
    [trace_id] or with another object's [id] only through such a
    repeated read. *)
Theorem identifiers_equal_iff_entropy_agrees
    (c1 c2 : call) (w1 w2 : World) (r1 r2 : pyval) :
  fst (perform c1 w1) = inl r1 ->
  fst (perform c2 w2) = inl r2 ->
  (identifier c1 r1 = identifier c2 r2
   <->
   Z.land (next_urandom w1) UUID.random_bits_mask =
   Z.land (next_urandom w2) UUID.random_bits_mask).
Proof.
  intros E1 E2.
  rewrite (identifier_of_call c1 w1 r1 E1), (identifier_of_call c2 w2 r2 E2).
  apply uuid4_strings_equal_iff.
Qed.

(** A Symbol and a query made from reads that differ in the version
    nibble only: the [id] and the [trace_id] coincide. *)
Lemma identifiers_equal_iff_entropy_agrees_witness :
  exists r1 r2 : pyval,
    fst (perform (CreateSymbol "main" "function" "src/main.rs" "rust")
           colliding_world) = inl r1 /\
    fst (perform (QueryObjects "rust functions" 10)
           (snd (perform (CreateSymbol "main" "function" "src/main.rs" "rust")
                   colliding_world))) = inl r2 /\
    identifier (CreateSymbol "main" "function" "src/main.rs" "rust") r1
    = identifier (QueryObjects "rust functions" 10) r2.
Proof.
  eexists _, _. split; [reflexivity|].
  assert (E2 : fst (perform (QueryObjects "rust functions" 10)
             (snd (perform
                     (CreateSymbol "main" "function" "src/main.rs" "rust")
                     colliding_world))) = inl _)
    by exact (f_equal fst (query_objects_run "rust functions" 10 _ ten_fits)).
  split; [exact E2|].
  apply (proj2 (identifiers_equal_iff_entropy_agrees
                  (CreateSymbol "main" "function" "src/main.rs" "rust")
                  (QueryObjects "rust functions" 10)
                  colliding_world _ _ _ eq_refl E2)).
  vm_compute. reflexivity.
Defined.

(** ** Sessions *)

Lemma session_cons_run (c : call) (cs : list call) (w : World)
    (r : pyval) (w1 : World) :
  perform c w = (inl r, w1) ->
  session (c :: cs) w =
  match session cs w1 with
  | (inl rs, w2) => (inl (r :: rs), w2)
  | (inr e, w2) => (inr e, w2)
  end.
Proof.
  intros E. cbn [session]. unfold bind_try, ret. rewrite E.
  destruct (session cs w1) as [[rs|e] w2]; reflexivity.
Qed.

(** X3: a session of calls whose query limits can all be printed
    returns one object per call, and leaves the process with one more
    call of [print] and one more 16-byte read made per call, and two
    more clock readings per created object (none per query); it prints
    after what was printed before, and changes neither the entropy
    pool nor the clock. *)
Theorem session_accounting (cs : list call) (w : World) :
  forallb call_fits cs = true ->
  exists (rs : list pyval) (w' : World) (out : list string),
    session cs w = (inl rs, w') /\
    List.length rs = List.length cs /\
    urandom_reads w' = (urandom_reads w + List.length cs)%nat /\
    clock_reads w' =
      (clock_reads w + 2 * List.length (filter is_creation cs))%nat /\
    stdout w' = (stdout w ++ out)%list /\
    List.length out = List.length cs /\
    os_urandom w' = os_urandom w /\
    system_clock w' = system_clock w.
Proof.
  revert w. induction cs as [|c cs IH]; intros w F.
  - exists [], w, []. cbn. rewrite app_nil_r. repeat split; lia.
  - cbn [forallb] in F. apply andb_true_iff in F. destruct F as [Fc Fcs].
    destruct (perform_run c w Fc) as (r & l & R & _).
    match type of R with _ = (_, ?W) => set (w1 := W) in * end.
    rewrite (session_cons_run c cs w r w1 R).
    destruct (IH w1 Fcs)
      as (rs & w' & out & E & I1 & I2 & I3 & I4 & I5 & I6 & I7).
    rewrite E. exists (r :: rs), w', (l :: out).
    unfold w1 in *.
    cbn [urandom_reads clock_reads os_urandom system_clock stdout] in *.
    split; [reflexivity|].
    cbn [List.length filter].
    split; [lia|]. split; [lia|].
    split; [destruct (is_creation c); cbn [List.length]; lia|].
    split; [rewrite I4, <- app_assoc; reflexivity|].
    split; [lia|]. split; assumption.
Qed.

(** The calls of [main], as a session. *)
Lemma session_accounting_witness :
  exists (rs : list pyval) (w' : World),
    session [CreateSymbol "main" "function" "src/main.rs" "rust";
             CreateSymbol "Config" "type" "src/config.rs" "rust";
             QueryObjects "rust functions" 10] ticking_world = (inl rs, w') /\
    List.length rs = 3%nat /\
    urandom_reads w' = 3%nat /\
    clock_reads w' = 4%nat.
Proof.
  destruct (session_accounting
              [CreateSymbol "main" "function" "src/main.rs" "rust";
               CreateSymbol "Config" "type" "src/config.rs" "rust";
               QueryObjects "rust functions" 10] ticking_world)
    as (rs & w' & out & E & I1 & I2 & I3 & _).
  { vm_compute. reflexivity. }
  exists rs, w'. split; [exact E|]. split; [exact I1|].
  split; [exact I2 | exact I3].
Defined.

(** The identifiers of the objects a session returns. *)
Lemma session_identifiers (cs : list call) : forall (w : World)
    (rs : list pyval),
  fst (session cs w) = inl rs ->
  map (fun cr => identifier (fst cr) (snd cr)) (combine cs rs) =
  map (fun i => Some (PStr (UUID.str (UUID.set_version4
         (os_urandom w (urandom_reads w + i) mod 2 ^ 128)))))
      (seq 0 (List.length cs)).
Proof.
  induction cs as [|c cs IH]; intros w rs E; [reflexivity|].
  destruct (call_fits c) eqn:Fc.
  - destruct (perform_run c w Fc) as (r & l & R & I & _).
    match type of R with _ = (_, ?W) => set (w1 := W) in * end.
    rewrite (session_cons_run c cs w r w1 R) in E.
    destruct (session cs w1) as [[rs'|e] w2] eqn:S; [|discriminate E].
    cbn [fst] in E. injection E as <-.
    cbn [fst snd combine map List.length seq].
    rewrite I. unfold next_urandom. rewrite Nat.add_0_r. f_equal.
    rewrite (IH w1 rs' (f_equal fst S)), <- seq_shift, map_map.
    unfold w1. cbn [os_urandom urandom_reads].
    apply map_ext. intros i. now rewrite Nat.add_succ_r.
  - cbn [session] in E. unfold bind_try in E.
    rewrite (perform_raises c w Fc) in E. discriminate E.
Qed.

(** X4: in a session that returns, the identifiers of the returned
    objects (ids and trace ids together) are pairwise distinct
    provided the 16-byte reads the session makes differ pairwise on
    the 122 bits [uuid4] keeps. *)
Theorem session_identifiers_distinct (cs : list call) (w : World)
    (rs : list pyval) :
  fst (session cs w) = inl rs ->
  (forall i j : nat, (i < j < List.length cs)%nat ->
     Z.land (os_urandom w (urandom_reads w + i)) UUID.random_bits_mask <>
     Z.land (os_urandom w (urandom_reads w + j)) UUID.random_bits_mask) ->
  NoDup (map (fun cr => identifier (fst cr) (snd cr)) (combine cs rs)).
Proof.
  intros E H. rewrite (session_identifiers cs w rs E).
  set (f := fun i : nat => Some (PStr (UUID.str (UUID.set_version4
         (os_urandom w (urandom_reads w + i) mod 2 ^ 128))))).
  assert (Inj : forall i j, (i < j < List.length cs)%nat -> f i <> f j).
  { intros i j Hij Eq. apply (H i j Hij).
    unfold f in Eq. now apply uuid4_strings_equal_iff in Eq. }
  clearbody f. clear H E.
  assert (G : forall n a, (a + n <= List.length cs)%nat ->
                NoDup (map f (seq a n))).
  { induction n as [|n IHn]; intros a Ha; cbn [seq map]; constructor.
    - intros Hin. apply in_map_iff in Hin. destruct Hin as (j & Eq & Hj).
      apply in_seq in Hj. apply (Inj a j); [lia | now symmetry].
    - apply IHn. lia. }
  apply G. lia.
Qed.

(** A session of three calls in a process whose entropy pool counts. *)
Lemma session_identifiers_distinct_witness :
  exists rs : list pyval,
    fst (session [CreateSymbol "main" "function" "src/main.rs" "rust";
                  QueryObjects "rust functions" 10;
                  CreateDecision "t" "p" "r" "o"] ticking_world) = inl rs /\
    NoDup (map (fun cr => identifier (fst cr) (snd cr))
             (combine [CreateSymbol "main" "function" "src/main.rs" "rust";
                       QueryObjects "rust functions" 10;
                       CreateDecision "t" "p" "r" "o"] rs)).
Proof.
  destruct (session_accounting
              [CreateSymbol "main" "function" "src/main.rs" "rust";
               QueryObjects "rust functions" 10;
               CreateDecision "t" "p" "r" "o"] ticking_world)
    as (rs & w' & out & E & _).
  { vm_compute. reflexivity. }
  exists rs. split; [exact (f_equal fst E)|].
  apply (session_identifiers_distinct _ ticking_world rs (f_equal fst E)).
  intros i j Hij. cbn [List.length] in Hij.
  assert (C : ((i = 0 /\ j = 1) \/ (i = 0 /\ j = 2) \/ (i = 1 /\ j = 2))%nat)
    by lia.
  destruct C as [[-> ->] | [[-> ->] | [-> ->]]]; vm_compute; discriminate.
Defined.

(** ** Timestamps *)

Lemma creation_timestamps (c : call) (w : World) :
  is_creation c = true ->
  exists r : pyval,
    fst (perform c w) = inl r /\
    field "created_at" r =
      Some (PStr (isoformat (system_clock w (clock_reads w)))) /\
    field "updated_at" r =
      Some (PStr (isoformat (system_clock w (S (clock_reads w))))).
Proof.
  intros C.
  assert (F : call_fits c = true) by (destruct c; [reflexivity.. | discriminate C]).
  destruct (perform_run c w F) as (r & l & R & _ & T).
  exists r. split; [now rewrite R | exact (T C)].
Qed.

(** X5: the [created_at] strings of two created objects compare, as
    strings, the way the clock readings they were made of compare as
    datetimes: sorting objects by [created_at] sorts them by creation
    time, and equal strings mean equal readings. *)
Theorem created_at_strings_sort_chronologically
    (c1 c2 : call) (w1 w2 : World) :
  is_creation c1 = true -> is_creation c2 = true ->
  valid_datetime (system_clock w1 (clock_reads w1)) ->
  valid_datetime (system_clock w2 (clock_reads w2)) ->
  exists (r1 r2 : pyval) (s1 s2 : string),
    fst (perform c1 w1) = inl r1 /\
    fst (perform c2 w2) = inl r2 /\
    field "created_at" r1 = Some (PStr s1) /\
    field "created_at" r2 = Some (PStr s2) /\
    String.compare s1 s2 =
      datetime_compare (system_clock w1 (clock_reads w1))
                       (system_clock w2 (clock_reads w2)).
Proof.
  intros C1 C2 V1 V2.
  destruct (creation_timestamps c1 w1 C1) as (r1 & R1 & E1 & _).
  destruct (creation_timestamps c2 w2 C2) as (r2 & R2 & E2 & _).
  exists r1, r2. eexists _, _.
  split; [exact R1|]. split; [exact R2|].
  split; [exact E1|]. split; [exact E2|].
  now apply isoformat_compare.
Qed.

(** A Symbol made before the clock is set back and a Decision made
    after it. *)
Lemma created_at_strings_sort_chronologically_witness :
  exists (r1 r2 : pyval) (s1 s2 : string),
    fst (perform (CreateSymbol "main" "function" "src/main.rs" "rust")
           stepped_back_world) = inl r1 /\
    fst (perform (CreateDecision "t" "p" "r" "o") ticking_world) = inl r2 /\
    field "created_at" r1 = Some (PStr s1) /\
    field "created_at" r2 = Some (PStr s2) /\
    String.compare s1 s2 = Gt.
Proof.
  apply (created_at_strings_sort_chronologically
           (CreateSymbol "main" "function" "src/main.rs" "rust")
           (CreateDecision "t" "p" "r" "o")
           stepped_back_world ticking_world);
    try reflexivity; unfold valid_datetime; simpl; lia.
Defined.

(** X6: the timestamps are not of one width: [created_at] (and
    likewise [updated_at]) has 19 characters when the clock reading
    has no microseconds and 26 characters otherwise, the fraction
    being left out rather than printed as zeros. *)
Theorem timestamp_width (c : call) (w : World) :
  is_creation c = true ->
  exists (r : pyval) (s1 s2 : string),
    fst (perform c w) = inl r /\
    field "created_at" r = Some (PStr s1) /\
    field "updated_at" r = Some (PStr s2) /\
    String.length s1 =
      (if microsecond (system_clock w (clock_reads w)) =? 0
       then 19%nat else 26%nat) /\
    String.length s2 =
      (if microsecond (system_clock w (S (clock_reads w))) =? 0
       then 19%nat else 26%nat).
Proof.
  intros C. destruct (creation_timestamps c w C) as (r & R & E1 & E2).
  exists r. eexists _, _.
  split; [exact R|]. split; [exact E1|]. split; [exact E2|].
  assert (L : forall d, String.length (isoformat d) =
                        (if microsecond d =? 0 then 19%nat else 26%nat)).
  { intros d. unfold isoformat.
    rewrite !string_length_app, !zfill_length.
    destruct (microsecond d =? 0); cbn [String.length append];
      rewrite ?zfill_length; reflexivity. }
  split; apply L.
Qed.

(** The first object made when the clock ticks a microsecond per
    reading: no fraction in [created_at], one in [updated_at]. *)
Lemma timestamp_width_witness :
  exists (r : pyval) (s1 s2 : string),
    fst (perform (CreateSymbol "main" "function" "src/main.rs" "rust")
           ticking_world) = inl r /\
    field "created_at" r = Some (PStr s1) /\
    field "updated_at" r = Some (PStr s2) /\
    String.length s1 = 19%nat /\ String.length s2 = 26%nat.
Proof.
  apply (timestamp_width
           (CreateSymbol "main" "function" "src/main.rs" "rust")
           ticking_world).
  reflexivity.
Defined.

(** ** [main] *)

Lemma str_of_small_ints :
  str_of_int 0 = inl "0" /\ str_of_int 42 = inl "42".
Proof. split; vm_compute; reflexivity. Qed.

(** X7: in every process, [main] runs to its end without raising (its
    query prints the limit 10, and [results] has both keys it reads,
    with values that print), makes four 16-byte reads and six clock
    readings, and calls [print] fifteen times after what was printed
    before; the tenth call always prints the text
    [Query returned 0 results in 42ms], although three objects were
    created just before the query. *)
Theorem main_always_reports_zero_results (repr : pyval -> pyres string)
    (w : World) :
  let w' := snd (main repr w) in
  fst (main repr w) = inl tt /\
  urandom_reads w' = (urandom_reads w + 4)%nat /\
  clock_reads w' = (clock_reads w + 6)%nat /\
  exists out : list string,
    stdout w' = (stdout w ++ out)%list /\
    List.length out = 15%nat /\
    nth_error out 9 = Some "Query returned 0 results in 42ms" /\
    nth_error out 8 = Some "Querying for: 'rust functions' (limit: 10)".
Proof.
  cbv zeta. unfold main, bind, bind_try, print, ret.
  rewrite create_symbol_run. cbv zeta.
  cbn [fst snd os_urandom urandom_reads system_clock clock_reads stdout].
  rewrite create_symbol_run. cbv zeta.
  cbn [fst snd os_urandom urandom_reads system_clock clock_reads stdout].
  rewrite create_decision_run. cbv zeta.
  cbn [fst snd os_urandom urandom_reads system_clock clock_reads stdout].
  rewrite (query_objects_run _ _ _ ten_fits).
  cbn [fst snd os_urandom urandom_reads system_clock clock_reads stdout
       subscript dict_get String.eqb Ascii.eqb Bool.eqb py_str bind_res].
  destruct str_of_small_ints as [E0 E42]. rewrite E0, E42.
  cbn [fst snd os_urandom urandom_reads system_clock clock_reads stdout
       bind_res].
  split; [reflexivity|]. split; [lia|]. split; [lia|].
  rewrite <- !app_assoc. cbn [app].
  eexists. split; [reflexivity|]. repeat split.
Qed.

(* ================================================================== *)
(** * Properties of [test_parser_fix] *)

(** The loop prints the texts of the symbols before the first one it
    cannot print, and raises there. *)
Lemma print_symbols_run (repr : pyval -> pyres string)
    (symbols : list pyval) :
  forall w : World,
    print_symbols repr symbols w =
    (snd (symbol_lines repr symbols),
     with_stdout w (fst (symbol_lines repr symbols))).
Proof.
  induction symbols as [|s rest IH]; intros w; cbn [print_symbols symbol_lines].
  - cbn. now rewrite with_stdout_nil.
  - unfold bind_try, bind, ret. destruct (symbol_line repr s) as [l|e].
    + rewrite print_run, IH.
      destruct (symbol_lines repr rest) as [ls r]. cbn [fst snd].
      now rewrite with_stdout_app.
    + cbn. now rewrite with_stdout_nil.
Qed.

Lemma py_len_iterate (v : pyval) (items : list pyval) :
  iterate v = inl items -> py_len v = inl (List.length items).
Proof.
  destruct v; cbn; intros E; try discriminate E; injection E as <-;
    now rewrite ?length_map.
Qed.

Lemma iterate_py_len (v : pyval) (n : nat) :
  py_len v = inl n -> exists items, iterate v = inl items.
Proof.
  destruct v; cbn; intros E; try discriminate E; eexists; reflexivity.
Qed.

Lemma no_unknown_types (items tys : list pyval) :
  symbol_types_of items = inl tys -> unknown_in tys = false ->
  Forall (fun s => exists ty, subscript s "symbol_type" = inl ty /\
                              ty <> PStr "unknown") items.
Proof.
  revert tys. induction items as [|s rest IH]; intros tys E U.
  - constructor.
  - cbn [symbol_types_of] in E.
    destruct (subscript s "symbol_type") as [ty|e] eqn:S1;
      cbn [bind_res] in E; [|discriminate].
    destruct (symbol_types_of rest) as [ts|e]; cbn [bind_res] in E;
      [|discriminate].
    injection E as <-. cbn [unknown_in existsb] in U.
    apply orb_false_iff in U. destruct U as [U1 U2].
    constructor; [|now apply (IH ts)].
    exists ty. split; [exact S1|].
    intros ->. now rewrite String.eqb_refl in U1.
Qed.

(** What the test does with a 200 response whose [symbols] can be
    iterated. *)
Lemma test_parser_fix_on_items (repr : pyval -> pyres string)
    (response : Response) (w : World) (result symbols : pyval)
    (items : list pyval) :
  status_code response = 200 ->
  json response = Some result ->
  get_symbols result = inl symbols ->
  iterate symbols = inl items ->
  let header := [ "✅ Parser test successful!";
                  "Found " ++ decimal (Z.of_nat (List.length items))
                  ++ " symbols:" ] in
  let lines := fst (symbol_lines repr items) in
  test_parser_fix_on repr response w =
  match snd (symbol_lines repr items), symbol_types_of items with
  | inr e, _ => (inr e, with_stdout w (header ++ lines))
  | inl _, inr e => (inr e, with_stdout w (header ++ lines))
  | inl _, inl tys =>
      if unknown_in tys
      then (inl false,
            with_stdout w (header ++ lines
                           ++ ["❌ Still finding 'unknown' symbol types"]))
      else (inl true,
            with_stdout w (header ++ lines
                           ++ ["✅ All symbols have proper types!"]))
  end.
Proof.
  intros E200 Ej Gs It. cbv zeta.
  unfold test_parser_fix_on, response_json. rewrite E200, Ej.
  cbn [Z.eqb Pos.eqb]. unfold bind_try, bind, ret.
  rewrite Gs. cbn [bind_res]. rewrite (py_len_iterate _ _ It), It.
  rewrite (print_run _ w). rewrite (print_run _ (with_stdout w _)).
  rewrite print_symbols_run, !with_stdout_app. cbn [app].
  destruct (snd (symbol_lines repr items)) as [[]|e]; [|reflexivity].
  destruct (symbol_types_of items) as [tys|e]; [|reflexivity].
  destruct (unknown_in tys);
    rewrite (print_run _ (with_stdout _ _)), with_stdout_app;
    cbn [app]; reflexivity.
Qed.

(** X8: the test is sound on every response: whenever
    [test_parser_fix] returns [True], the status code was 200, the
    body was JSON with a [get] method, and every item of its [symbols]
    has a [symbol_type] other than ['unknown']. *)
Theorem test_passes_only_without_unknown
    (repr : pyval -> pyres string) (response : Response) (w : World) :
  fst (test_parser_fix_on repr response w) = inl true ->
  status_code response = 200 /\
  exists result symbols items,
    json response = Some result /\
    get_symbols result = inl symbols /\
    iterate symbols = inl items /\
    Forall (fun s => exists ty, subscript s "symbol_type" = inl ty /\
                                ty <> PStr "unknown") items.
Proof.
  destruct (Z.eqb_spec (status_code response) 200) as [E200|N200].
  - destruct (json response) as [result|] eqn:Ej.
    + destruct (get_symbols result) as [symbols|e] eqn:Gs.
      * destruct (iterate symbols) as [items|e] eqn:It.
        -- rewrite (test_parser_fix_on_items repr response w result symbols
                      items E200 Ej Gs It).
           destruct (snd (symbol_lines repr items)) as [[]|e];
             [|discriminate].
           destruct (symbol_types_of items) as [tys|e] eqn:Ty;
             [|discriminate].
           destruct (unknown_in tys) eqn:U; [discriminate|].
           intros _. split; [exact E200|].
           exists result, symbols, items.
           split; [reflexivity|]. split; [exact Gs|]. split; [exact It|].
           now apply (no_unknown_types items tys).
        -- unfold test_parser_fix_on, response_json.
           rewrite Ej, E200. cbn [Z.eqb Pos.eqb].
           unfold bind_try, bind, ret. rewrite Gs. cbn [bind_res].
           rewrite (print_run _ w).
           destruct (py_len symbols) as [n|e'] eqn:Ln; [|discriminate].
           destruct (iterate_py_len _ _ Ln) as [items It'].
           rewrite It' in It. discriminate It.
      * unfold test_parser_fix_on, response_json.
        rewrite Ej, E200. cbn [Z.eqb Pos.eqb].
        unfold bind_try, bind, ret. rewrite Gs. cbn [bind_res].
        rewrite (print_run _ w). discriminate.
    + unfold test_parser_fix_on, response_json.
      rewrite Ej, E200. cbn [Z.eqb Pos.eqb].
      unfold bind_try, bind, ret. discriminate.
  - unfold test_parser_fix_on.
    destruct (Z.eqb_spec (status_code response) 200) as [E|_];
      [contradiction|].
    unfold bind_try, bind, ret.
    destruct (str_of_int (status_code response)) as [shown|e];
      [|discriminate].
    rewrite (print_run _ w), (print_run _ (with_stdout w _)). discriminate.
Qed.

(** A response with one function symbol passes. *)
Lemma test_passes_only_without_unknown_witness :
  let response :=
    mkResponse 200 EmptyString
      (Some (PDict [("symbols",
                     PList [PDict [("symbol_type", PStr "function");
                                   ("name", PStr "hello_world");
                                   ("start_line", PInt 1)]])])) in
  fst (test_parser_fix_on (fun _ => inl EmptyString) response ticking_world)
    = inl true /\
  exists result symbols items,
    json response = Some result /\
    get_symbols result = inl symbols /\
    iterate symbols = inl items /\
    Forall (fun s => exists ty, subscript s "symbol_type" = inl ty /\
                                ty <> PStr "unknown") items.
Proof.
  cbv zeta.
  assert (E : fst (test_parser_fix_on (fun _ => inl EmptyString)
                (mkResponse 200 EmptyString
                   (Some (PDict [("symbols",
                     PList [PDict [("symbol_type", PStr "function");
                                   ("name", PStr "hello_world");
                                   ("start_line", PInt 1)]])])))
                ticking_world) = inl true)
    by (vm_compute; reflexivity).
  split; [exact E|].
  exact (proj2 (test_passes_only_without_unknown _ _ _ E)).
Defined.

(** X9: on a status code other than 200 (one that [str] prints, as
    every status code of an HTTP response is) the test returns
    [False] after two calls of [print], the first with the status code
    and the second with the text of the response, whole; the body is
    never decoded, so a body that is not JSON does not make the test
    raise. *)
Theorem test_fails_on_other_status (repr : pyval -> pyres string)
    (response : Response) (w : World) :
  status_code response <> 200 ->
  fits_str_digits (status_code response) = true ->
  test_parser_fix_on repr response w =
  (inl false,
   with_stdout w
     [ "❌ Parser test failed: " ++ decimal (status_code response);
       text response ]).
Proof.
  intros N F. unfold test_parser_fix_on.
  destruct (Z.eqb_spec (status_code response) 200) as [E|_]; [contradiction|].
  unfold bind_try, bind, ret. rewrite (str_of_int_fits _ F).
  rewrite (print_run _ w).
  rewrite (print_run _ (with_stdout w _)), with_stdout_app. reflexivity.
Qed.

(** A 500 response with a body that is not JSON. *)
Lemma test_fails_on_other_status_witness :
  test_parser_fix_on (fun _ => inl EmptyString)
    (mkResponse 500 "Internal Server Error" None) ticking_world =
  (inl false,
   with_stdout ticking_world
     [ "❌ Parser test failed: 500"; "Internal Server Error" ]).
Proof.
  apply (test_fails_on_other_status (fun _ => inl EmptyString)
           (mkResponse 500 "Internal Server Error" None) ticking_world).
  - cbn. discriminate.
  - vm_compute. reflexivity.
Defined.

(** X10: the test passes on a 200 response that lists no symbol at
    all: when the body is a JSON object with no [symbols] key, or with
    an empty [symbols] list, it prints [Found 0 symbols:] and returns
    [True]. *)
Theorem test_passes_without_symbols (repr : pyval -> pyres string)
    (response : Response) (w : World) (d : pydict) :
  status_code response = 200 ->
  json response = Some (PDict d) ->
  dict_get "symbols" d = None \/ dict_get "symbols" d = Some (PList []) ->
  test_parser_fix_on repr response w =
  (inl true,
   with_stdout w
     [ "✅ Parser test successful!";
       "Found 0 symbols:";
       "✅ All symbols have proper types!" ]).
Proof.
  intros E200 Ej H.
  assert (Gs : get_symbols (PDict d) = inl (PList [])).
  { cbn [get_symbols]. destruct H as [-> | ->]; reflexivity. }
  rewrite (test_parser_fix_on_items repr response w (PDict d) (PList []) []
             E200 Ej Gs eq_refl).
  reflexivity.
Qed.

(** A 200 response whose body is the empty JSON object. *)
Lemma test_passes_without_symbols_witness :
  fst (test_parser_fix_on (fun _ => inl EmptyString)
         (mkResponse 200 "{}" (Some (PDict []))) ticking_world) = inl true.
Proof.
  rewrite (test_passes_without_symbols (fun _ => inl EmptyString)
             (mkResponse 200 "{}" (Some (PDict []))) ticking_world []);
    [reflexivity | reflexivity | reflexivity | left; reflexivity].
Defined.

Lemma wellformed_symbol_line (repr : pyval -> pyres string)
    (s : pyval) (e : string * string * Z) :
  wellformed_symbol s e ->
  symbol_line repr s = inl (entry_line e) /\
  subscript s "symbol_type" = inl (PStr (fst (fst e))).
Proof.
  intros (d & -> & E1 & E2 & E3 & F).
  unfold symbol_line, subscript. rewrite E1, E2, E3.
  cbn [bind_res py_str add_one]. rewrite (str_of_int_fits _ F).
  split; reflexivity.
Qed.

Lemma symbol_lines_wellformed (repr : pyval -> pyres string)
    (items : list pyval) (entries : list (string * string * Z)) :
  Forall2 wellformed_symbol items entries ->
  symbol_lines repr items = (map entry_line entries, inl tt) /\
  symbol_types_of items = inl (map (fun e => PStr (fst (fst e))) entries) /\
  List.length items = List.length entries.
Proof.
  induction 1 as [|s e items entries W _ IH]; [repeat split|].
  destruct (wellformed_symbol_line repr s e W) as [L T].
  destruct IH as (IL & IT & IN).
  cbn [symbol_lines symbol_types_of map List.length].
  rewrite L, T, IL, IT, IN. repeat split.
Qed.

Lemma unknown_in_strings (entries : list (string * string * Z)) :
  unknown_in (map (fun e => PStr (fst (fst e))) entries) =
  has_unknown (map (fun e => fst (fst e)) entries).
Proof.
  unfold unknown_in, has_unknown.
  induction entries as [|e entries IH]; [reflexivity|].
  cbn [map existsb]. now rewrite IH.
Qed.

(** X11: on a 200 response whose [symbols] is a list of well-formed
    symbols (each a dict that has, possibly among other keys, a string
    [symbol_type], a string [name] and an int [start_line] whose
    successor has at most 4300 digits) the test does not raise; it
    returns [True] exactly when no [symbol_type] is ['unknown'], and
    calls [print], between the two header texts and the verdict, once
    per symbol, in order, showing the zero-based [start_line] as the
    one-based number [start_line + 1]. *)
Theorem test_verdict_on_wellformed_symbols (repr : pyval -> pyres string)
    (response : Response) (w : World) (d : pydict)
    (items : list pyval) (entries : list (string * string * Z)) :
  status_code response = 200 ->
  json response = Some (PDict d) ->
  dict_get "symbols" d = Some (PList items) ->
  Forall2 wellformed_symbol items entries ->
  let types := map (fun e => fst (fst e)) entries in
  test_parser_fix_on repr response w =
  (inl (test_parser_fix 200 types),
   with_stdout w
     ([ "✅ Parser test successful!";
        "Found " ++ decimal (Z.of_nat (List.length entries))
        ++ " symbols:" ]
      ++ map entry_line entries
      ++ [ if has_unknown types
           then "❌ Still finding 'unknown' symbol types"
           else "✅ All symbols have proper types!" ])).
Proof.
  intros E200 Ej Es W. cbv zeta.
  assert (Gs : get_symbols (PDict d) = inl (PList items))
    by (cbn [get_symbols]; now rewrite Es).
  rewrite (test_parser_fix_on_items repr response w _ _ _ E200 Ej Gs eq_refl).
  destruct (symbol_lines_wellformed repr items entries W) as (L & T & N).
  rewrite L, T, N, unknown_in_strings.
  cbn [fst snd]. unfold test_parser_fix. cbn [Z.eqb Pos.eqb].
  destruct (has_unknown (map (fun e => fst (fst e)) entries)); reflexivity.
Qed.

(** A response with a function on line 1, which also carries its
    [end_line], and an unknown on line 4. *)
Lemma test_verdict_on_wellformed_symbols_witness :
  test_parser_fix_on (fun _ => inl EmptyString)
    (mkResponse 200 EmptyString
       (Some (PDict [("symbols",
                      PList [PDict [("name", PStr "hello_world");
                                    ("symbol_type", PStr "function");
                                    ("start_line", PInt 1);
                                    ("end_line", PInt 3)];
                             PDict [("symbol_type", PStr "unknown");
                                    ("name", PStr "x");
                                    ("start_line", PInt 4)]])])))
    ticking_world =
  (inl false,
   with_stdout ticking_world
     [ "✅ Parser test successful!";
       "Found 2 symbols:";
       "  - function: hello_world (line 2)";
       "  - unknown: x (line 5)";
       "❌ Still finding 'unknown' symbol types" ]).
Proof.
  pose (items := [PDict [("name", PStr "hello_world");
                         ("symbol_type", PStr "function");
                         ("start_line", PInt 1);
                         ("end_line", PInt 3)];
                  PDict [("symbol_type", PStr "unknown");
                         ("name", PStr "x");
                         ("start_line", PInt 4)]]).
  apply (test_verdict_on_wellformed_symbols (fun _ => inl EmptyString)
           (mkResponse 200 EmptyString
              (Some (PDict [("symbols", PList items)])))
           ticking_world
           [("symbols", PList items)] items
           [("function", "hello_world", 1); ("unknown", "x", 4)]);
    try reflexivity.
  repeat constructor;
    (eexists; repeat split; try reflexivity; vm_compute; reflexivity).
Defined.

Lemma symbol_lines_until_bad (repr : pyval -> pyres string)
    (good : list pyval) (bad : pyval) (rest : list pyval) (e : pyexn) :
  Forall (fun s => exists l, symbol_line repr s = inl l) good ->
  symbol_line repr bad = inr e ->
  snd (symbol_lines repr (good ++ bad :: rest)) = inr e /\
  List.length (fst (symbol_lines repr (good ++ bad :: rest)))
  = List.length good.
Proof.
  intros G B. induction G as [|s good Hs G IH]; cbn [app symbol_lines].
  - rewrite B. split; reflexivity.
  - destruct Hs as [l ->].
    destruct (symbol_lines repr (good ++ bad :: rest)) as [ls r].
    cbn [fst snd List.length] in *. destruct IH as [-> ->].
    split; reflexivity.
Qed.

(** X12: a symbol that cannot be printed makes the test raise, not
    fail: when printing the text of an item of a [symbols] list raises
    (the item is not a dict, or lacks one of the three keys, or its
    [start_line] cannot be added to 1, or a value cannot be printed)
    and the items before it can be printed, the test raises the
    exception of that item, after printing the two header texts and
    one text for each item before it; it returns neither [True] nor
    [False]. *)
Theorem test_raises_on_malformed_symbol (repr : pyval -> pyres string)
    (response : Response) (w : World) (result : pyval)
    (good : list pyval) (bad : pyval) (rest : list pyval) (e : pyexn) :
  status_code response = 200 ->
  json response = Some result ->
  get_symbols result = inl (PList (good ++ bad :: rest)) ->
  Forall (fun s => exists l, symbol_line repr s = inl l) good ->
  symbol_line repr bad = inr e ->
  fst (test_parser_fix_on repr response w) = inr e /\
  exists lines : list string,
    List.length lines = List.length good /\
    stdout (snd (test_parser_fix_on repr response w)) =
    (stdout w
     ++ [ "✅ Parser test successful!";
          ("Found "
           ++ decimal (Z.of_nat (List.length (good ++ bad :: rest)))
           ++ " symbols:")%string ]
     ++ lines)%list.
Proof.
  intros E200 Ej Gs G B.
  rewrite (test_parser_fix_on_items repr response w _ _ _ E200 Ej Gs eq_refl).
  destruct (symbol_lines_until_bad repr good bad rest e G B) as [R L].
  rewrite R. cbn [fst snd]. split; [reflexivity|].
  exists (fst (symbol_lines repr (good ++ bad :: rest))).
  split; [exact L | reflexivity].
Qed.

(** A symbol without a name after a well-formed one. *)
Lemma test_raises_on_malformed_symbol_witness :
  fst (test_parser_fix_on (fun _ => inl EmptyString)
         (mkResponse 200 EmptyString
            (Some (PDict [("symbols",
                           PList [PDict [("symbol_type", PStr "function");
                                         ("name", PStr "hello_world");
                                         ("start_line", PInt 1)];
                                  PDict [("symbol_type", PStr "class")]])])))
         ticking_world) = inr (KeyError "name").
Proof.
  apply (test_raises_on_malformed_symbol (fun _ => inl EmptyString)
           (mkResponse 200 EmptyString
              (Some (PDict [("symbols",
                    PList [PDict [("symbol_type", PStr "function");
                                  ("name", PStr "hello_world");
                                  ("start_line", PInt 1)];
                           PDict [("symbol_type", PStr "class")]])])))
           ticking_world
           (PDict [("symbols",
                    PList [PDict [("symbol_type", PStr "function");
                                  ("name", PStr "hello_world");
                                  ("start_line", PInt 1)];
                           PDict [("symbol_type", PStr "class")]])])
           [PDict [("symbol_type", PStr "function");
                   ("name", PStr "hello_world");
                   ("start_line", PInt 1)]]
           (PDict [("symbol_type", PStr "class")]) [] (KeyError "name"));
    try reflexivity.
  constructor; [|constructor].
  eexists. vm_compute. reflexivity.
Defined.

(* ================================================================== *)
(** * Properties of [sample.py] *)

Section SampleProperties.

Import Sample.

(** ** [calculate_fibonacci] *)

Lemma fib_pair_step (k : nat) :
  fst (fib_pair (S (S k))) = fst (fib_pair (S k)) + fst (fib_pair k).
Proof.
  cbn [fib_pair]. destruct (fib_pair k) as [a b]. cbn [fst]. lia.
Qed.


(** ** [process_data] *)


(** ** [DatabaseConnection] *)

Lemma connect_run (self : DatabaseConnection) (w : World) :
  fits_str_digits (port self) = true ->
  connect self w =
  (inl (mkDatabaseConnection (host self) (port self) (Some true), true),
   with_stdout w ["Connecting to " ++ host self ++ ":"
                  ++ decimal (port self)]).
Proof.
  intros F. unfold connect, bind_try, bind, ret.
  rewrite (str_of_int_fits _ F). reflexivity.
Qed.

Lemma db_step_state (self : DatabaseConnection) (c : db_call) (w : World) :
  fits_str_digits (port self) = true ->
  let self' := fst (fst (db_step self c w)) in
  host self' = host self /\ port self' = port self /\
  connected self' = ends_connected (connected self) [c].
Proof.
  intros F. destruct c; cbn [db_step ends_connected].
  - rewrite (connect_run self w F). cbn. repeat split.
  - unfold disconnect, bind, ret.
    destruct (connected self) eqn:C; cbn; rewrite ?C; repeat split.
  - cbn. repeat split.
Qed.

Lemma db_run_cons (self : DatabaseConnection) (c : db_call)
    (cs : list db_call) (w : World) :
  db_run self (c :: cs) w =
  db_run (fst (fst (db_step self c w))) cs (snd (db_step self c w)).
Proof.
  cbn [db_run]. unfold bind. destruct (db_step self c w) as [[s r] w1].
  reflexivity.
Qed.

(** X15: whatever the calls made on a connection whose port has at
    most 4300 digits ([connect], [disconnect], [execute_query], in any
    number and order), its [host] and [port] never change, and a query
    made afterwards succeeds, returning no rows, exactly when the last
    [connect] or [disconnect] among the calls was a [connect] (or,
    there being none, when the connection was open to begin with);
    otherwise it raises [ConnectionError]. *)
Theorem connection_state_after_calls (self : DatabaseConnection)
    (cs : list db_call) (w : World) (query : string) :
  fits_str_digits (port self) = true ->
  let self' := fst (db_run self cs w) in
  host self' = host self /\
  port self' = port self /\
  execute_query self' query =
    if ends_connected (connected self) cs then inl []
    else inr (ConnectionError "Not connected to database").
Proof.
  cbv zeta. revert self w. induction cs as [|c cs IH]; intros self w F.
  - cbn [db_run ret fst ends_connected]. unfold execute_query.
    repeat split. now destruct (connected self).
  - rewrite db_run_cons.
    destruct (db_step_state self c w F) as (Hh & Hp & Hc).
    destruct (IH (fst (fst (db_step self c w))) (snd (db_step self c w)))
      as (I1 & I2 & I3); [now rewrite Hp|].
    rewrite I1, I2, I3, Hh, Hp, Hc.
    repeat split. destruct c; reflexivity.
Qed.

(** A connection to port 5432 that is opened, closed and opened
    again. *)
Lemma connection_state_after_calls_witness :
  execute_query
    (fst (db_run (init "localhost" 5432)
            [Connect; ExecuteQuery "SELECT 1"; Disconnect; Connect]
            ticking_world)) "SELECT 1" = inl [].
Proof.
  apply (connection_state_after_calls (init "localhost" 5432)
           [Connect; ExecuteQuery "SELECT 1"; Disconnect; Connect]
           ticking_world "SELECT 1").
  vm_compute. reflexivity.
Defined.

(** X16: [disconnect] is idempotent and silent when there is nothing
    to close: on a connection that is not open it changes nothing and
    prints nothing, so after one [disconnect] a second one has no
    effect; on an open one it prints [Disconnected] once. *)
Theorem disconnect_is_idempotent (self : DatabaseConnection) (w : World) :
  let self1 := fst (disconnect self w) in
  let w1 := snd (disconnect self w) in
  disconnect self1 w1 = (self1, w1) /\
  connected self1 = false /\
  w1 = (if connected self then with_stdout w ["Disconnected"] else w).
Proof.
  cbv zeta. unfold disconnect, bind, ret.
  destruct (connected self) eqn:C.
  - rewrite (print_run _ w). cbn. repeat split.
  - cbn [fst snd]. rewrite C. repeat split.
Qed.

End SampleProperties.
